(** * SQLtoCSV: the connection manager and the procedure form of app.py

    A shallow embedding of [SQLServerConnection] (connect, disconnect,
    execute_stored_procedure) and of [render_procedure_interface].  The
    database driver (pyodbc) is outside the program: it is a parameter of the
    development, a record of transition functions on a driver state, and every
    call made to it is appended to a log so that "no driver call" and "the
    statement that was sent" are statements about that log.  What pandas does
    with the fetched records in [DataFrame.from_records] is outside the
    program too and is part of the same parameter. *)

From Stdlib Require Import String Ascii List Bool Arith ZArith Lia.
From Stdlib Require Import DecimalNat DecimalString.
Import ListNotations.
Local Open Scope list_scope.
Local Open Scope string_scope.

(** ** Python primitives used by the source *)

Module Py.

(** Truth value of a [str]: the empty string is false. *)
Definition truthy_str (s : string) : bool := negb (s =? EmptyString).

(** Truth value of a list or a dict: empty is false. *)
Definition truthy_list {A : Type} (l : list A) : bool :=
  match l with [] => false | _ :: _ => true end.

(** Truth value of an optional object whose class defines neither
    [__bool__] nor [__len__] (a pyodbc connection): only [None] is false. *)
Definition truthy_obj {A : Type} (o : option A) : bool :=
  match o with Some _ => true | None => false end.

(** Truth value of something that is [None] or a sequence. *)
Definition truthy_opt_list {A : Type} (o : option (list A)) : bool :=
  match o with Some (_ :: _) => true | _ => false end.

(** [sep.join(l)] *)
Fixpoint join (sep : string) (l : list string) : string :=
  match l with
  | [] => EmptyString
  | [x] => x
  | x :: rest => x ++ sep ++ join sep rest
  end.

(** [str(n)] for a non-negative [int], as [{len(rows)}] formats it. *)
Definition str_of_nat (n : nat) : string :=
  NilEmpty.string_of_uint (Nat.to_uint n).

(** [str(x)] for an optional string, [None] printing as "None". *)
Definition str_of_opt (o : option string) : string :=
  match o with Some s => s | None => "None" end.

(** A [dict] from [str] to [str]: insertion ordered, keys unique. *)
Definition dict := list (string * string).

(** [d[k] = v]: an existing key keeps its position and takes the new value,
    a new key goes to the end. *)
Fixpoint setitem (d : dict) (k v : string) : dict :=
  match d with
  | [] => [(k, v)]
  | (k', v') :: rest =>
      if k' =? k then (k', v) :: rest else (k', v') :: setitem rest k v
  end.

(** [d.get(k)] *)
Fixpoint get (d : dict) (k : string) : option string :=
  match d with
  | [] => None
  | (k', v') :: rest => if k' =? k then Some v' else get rest k
  end.

Definition keys (d : dict) : list string := map fst d.
Definition values (d : dict) : list string := map snd d.

End Py.

(** ** The driver boundary *)

(** Exceptions derived from [Exception], in the two classes the handlers of
    the source tell apart; [str(e)] is the carried text. *)
Inductive exn : Type :=
| PyodbcError (text : string)
| OtherException (text : string).

Definition str_of_exn (e : exn) : string :=
  match e with PyodbcError t => t | OtherException t => t end.

Inductive Outcome (A : Type) : Type :=
| Returned (a : A)
| Raised (e : exn).
Arguments Returned {A} a.
Arguments Raised {A} e.

(** Connection and cursor objects are opaque; they are told apart by an id. *)
Definition Handle := nat.
Definition Cursor := nat.

(** One entry of [cursor.description]; the source reads component 0 only. *)
Record ColumnDescription : Type := {
  column_0 : string;
  type_code : string;
  null_ok : bool
}.

(** What the program asks of the libraries it calls.  Of pyodbc: the calls
    below, where [dstate] is whatever the driver and the server remember
    between calls.  Of pandas: how [DataFrame.from_records] treats the fetched
    records, that is, the exception it raises on them, if any
    ([frame_error]), and the values that record number [i] of the frame holds
    after pandas' type inference ([frame_record]). *)
Record Driver (Value : Type) : Type := {
  dstate : Type;
  pyodbc_connect : string -> Z -> dstate -> Outcome Handle * dstate;
  connection_close : Handle -> dstate -> Outcome unit * dstate;
  connection_cursor : Handle -> dstate -> Outcome Cursor * dstate;
  cursor_execute :
    Cursor -> string -> option (list string) -> dstate -> Outcome unit * dstate;
  cursor_description :
    Cursor -> dstate -> Outcome (option (list ColumnDescription));
  cursor_fetchall : Cursor -> dstate -> Outcome (list (list Value)) * dstate;
  frame_error : list (list Value) -> list string -> option exn;
  frame_record : list (list Value) -> list string -> nat -> list Value
}.
Arguments dstate {Value} d.
Arguments pyodbc_connect {Value} d _ _ _.
Arguments connection_close {Value} d _ _.
Arguments connection_cursor {Value} d _ _.
Arguments cursor_execute {Value} d _ _ _ _.
Arguments cursor_description {Value} d _ _.
Arguments cursor_fetchall {Value} d _ _.
Arguments frame_error {Value} d _ _.
Arguments frame_record {Value} d _ _ _.

(** The calls the program makes to the driver, as they are logged. *)
Inductive DriverCall : Type :=
| CallConnect (connection_string : string) (timeout : Z)
| CallClose (h : Handle)
| CallCursor (h : Handle)
| CallExecute (c : Cursor) (query : string) (params : option (list string))
| CallFetchall (c : Cursor).

(** ** pandas *)

(** A [DataFrame] as far as the program looks at it: column labels and
    records, both in order. *)
Record DataFrame (Value : Type) : Type := {
  df_columns : list string;
  df_rows : list (list Value)
}.
Arguments df_columns {Value} d.
Arguments df_rows {Value} d.

(** [pd.DataFrame()] *)
Definition DataFrame_empty {Value : Type} : DataFrame Value :=
  {| df_columns := []; df_rows := [] |}.

(** [pd.DataFrame.from_records(rows, columns=columns)]: pandas raises, or
    it builds a frame labelled with [columns] that holds one record per input
    record.  Whether it raises and what the records hold is the library's. *)
Definition from_records {Value : Type} (D : Driver Value)
    (rows : list (list Value)) (columns : list string)
    : Outcome (DataFrame Value) :=
  match frame_error D rows columns with
  | Some e => Raised e
  | None =>
      Returned
        {| df_columns := columns;
           df_rows := map (frame_record D rows columns) (seq 0 (length rows)) |}
  end.

(** ** The connection manager *)

(** The fields of a [SQLServerConnection] object. *)
Record SQLServerConnection : Type := {
  connection : option Handle;
  is_connected : bool
}.

(** [__init__] *)
Definition init : SQLServerConnection :=
  {| connection := None; is_connected := false |}.

Section Manager.

Context {Value : Type} (D : Driver Value).

(** The world outside the object: the driver's state and the log of the
    calls made so far, oldest first. *)
Record World : Type := {
  drv : dstate D;
  calls : list DriverCall
}.

(** Code that talks to the driver and may raise. *)
Definition M (A : Type) : Type := World -> Outcome A * World.

Definition ret {A : Type} (a : A) : M A := fun w => (Returned a, w).

Definition bind {A B : Type} (m : M A) (k : A -> M B) : M B :=
  fun w =>
    match m w with
    | (Returned a, w') => k a w'
    | (Raised e, w') => (Raised e, w')
    end.

Notation "x <- m ;; k" := (bind m (fun x => k))
  (at level 61, m at next level, right associativity).
Notation "m ;;; k" := (bind m (fun _ => k))
  (at level 61, right associativity).

(** A logged call: run the driver's transition, append the call. *)
Definition logged {A : Type}
    (ev : DriverCall) (f : dstate D -> Outcome A * dstate D) : M A :=
  fun w =>
    let (r, s') := f (drv w) in
    (r, {| drv := s'; calls := calls w ++ [ev] |}).

Definition do_connect (connection_string : string) (timeout : Z) : M Handle :=
  logged (CallConnect connection_string timeout)
         (pyodbc_connect D connection_string timeout).

Definition do_close (h : Handle) : M unit :=
  logged (CallClose h) (connection_close D h).

Definition do_cursor (h : Handle) : M Cursor :=
  logged (CallCursor h) (connection_cursor D h).

Definition do_execute (c : Cursor) (query : string)
    (params : option (list string)) : M unit :=
  logged (CallExecute c query params) (cursor_execute D c query params).

Definition do_fetchall (c : Cursor) : M (list (list Value)) :=
  logged (CallFetchall c) (cursor_fetchall D c).

(** A computation that touches nothing outside but may raise. *)
Definition computed {A : Type} (o : Outcome A) : M A := fun w => (o, w).

(** Reading the attribute [cursor.description]: no call, no change. *)
Definition read_description (c : Cursor)
    : M (option (list ColumnDescription)) :=
  fun w => (cursor_description D c (drv w), w).

(** The connection string of lines 32-46. *)
Definition connection_string
    (server database auth_type : string)
    (username password : option string) : string :=
  if auth_type =? "Windows" then
    "DRIVER={ODBC Driver 17 for SQL Server};"
    ++ "SERVER=" ++ server ++ ";"
    ++ "DATABASE=" ++ database ++ ";"
    ++ "Trusted_Connection=yes;"
  else
    "DRIVER={ODBC Driver 17 for SQL Server};"
    ++ "SERVER=" ++ server ++ ";"
    ++ "DATABASE=" ++ database ++ ";"
    ++ "UID=" ++ Py.str_of_opt username ++ ";"
    ++ "PWD=" ++ Py.str_of_opt password ++ ";".

(** [SQLServerConnection.connect]: the result pair and the object after. *)
Definition connect (self : SQLServerConnection)
    (server database auth_type : string)
    (username password : option string) (w : World)
    : (bool * string) * SQLServerConnection * World :=
  match do_connect
          (connection_string server database auth_type username password)
          10 w with
  | (Returned h, w') =>
      ((true, "Connected successfully!"),
       {| connection := Some h; is_connected := true |}, w')
  | (Raised (PyodbcError e), w') =>
      ((false, "Connection failed: " ++ e),
       {| connection := connection self; is_connected := false |}, w')
  | (Raised (OtherException e), w') =>
      ((false, "Unexpected error: " ++ e),
       {| connection := connection self; is_connected := false |}, w')
  end.

(** [SQLServerConnection.disconnect] *)
Definition disconnect (self : SQLServerConnection) (w : World)
    : (bool * string) * SQLServerConnection * World :=
  match connection self with
  | Some h =>
      match do_close h w with
      | (Returned _, w') =>
          ((true, "Disconnected successfully"),
           {| connection := connection self; is_connected := false |}, w')
      | (Raised e, w') =>
          ((false, "Error disconnecting: " ++ str_of_exn e), self, w')
      end
  | None => ((true, "No active connection"), self, w)
  end.

(** Lines 87-94: the statement text and the values bound to it. *)
Definition param_placeholders (parameters : Py.dict) : string :=
  Py.join ", " (map (fun _ => "?") (Py.keys parameters)).

Definition run_statement (cursor : Cursor) (procedure_name : string)
    (parameters : option Py.dict) : M unit :=
  match parameters with
  | Some ((_ :: _) as d) =>
      let param_values := Py.values d in
      let query := "EXEC " ++ procedure_name ++ " " ++ param_placeholders d in
      do_execute cursor query (Some param_values)
  | _ =>
      let query := "EXEC " ++ procedure_name in
      do_execute cursor query None
  end.

(** Lines 85-103: the body of the [try]. *)
Definition execute_body (h : Handle) (procedure_name : string)
    (parameters : option Py.dict)
    : M (bool * option (DataFrame Value) * string) :=
  cursor <- do_cursor h ;;
  run_statement cursor procedure_name parameters ;;;
  description <- read_description cursor ;;
  let columns :=
    if Py.truthy_opt_list description
    then match description with
         | Some d => map column_0 d
         | None => []
         end
    else [] in
  rows <- do_fetchall cursor ;;
  if Py.truthy_list columns && Py.truthy_list rows then
    df <- computed (from_records D rows columns) ;;
    ret (true, Some df,
         "Procedure executed successfully. "
         ++ Py.str_of_nat (length rows) ++ " rows returned.")
  else
    ret (true, Some DataFrame_empty,
         "Procedure executed successfully. No data returned.").

(** [SQLServerConnection.execute_stored_procedure]; it assigns no field. *)
Definition execute_stored_procedure (self : SQLServerConnection)
    (procedure_name : string) (parameters : option Py.dict) (w : World)
    : (bool * option (DataFrame Value) * string) * World :=
  if negb (is_connected self) || negb (Py.truthy_obj (connection self)) then
    ((false, None, "No active database connection"), w)
  else
    match connection self with
    | Some h =>
        match execute_body h procedure_name parameters w with
        | (Returned r, w') => (r, w')
        | (Raised (PyodbcError e), w') =>
            ((false, None, "SQL Error: " ++ e), w')
        | (Raised (OtherException e), w') =>
            ((false, None, "Unexpected error: " ++ e), w')
        end
    | None => ((false, None, "No active database connection"), w)
    end.

(** ** The shell: session state and the procedure form *)

(** The entries of [st.session_state] that the procedure form reads or
    writes. *)
Record SessionState : Type := {
  db_connection : SQLServerConnection;
  connection_status : option (bool * string);
  last_result : option (DataFrame Value)
}.

Definition set_last_result (st : SessionState)
    (r : option (DataFrame Value)) : SessionState :=
  {| db_connection := db_connection st;
     connection_status := connection_status st;
     last_result := r |}.

(** What the widgets of one render pass hold: the text inputs keyed
    [param_name_i] and [param_value_i], the number input and the button. *)
Record ProcedureForm : Type := {
  procedure_name : string;
  num_params : nat;
  param_name : nat -> string;
  param_value : nat -> string;
  execute_clicked : bool
}.

(** Banners shown by one render pass. *)
Inductive Banner : Type :=
| Warning (text : string)
| Error (text : string)
| Success (text : string).

(** One turn of the loop of lines 329-337. *)
Definition collect_slot (form : ProcedureForm)
    (parameters : Py.dict) (i : nat) : Py.dict :=
  if Py.truthy_str (param_name form i) && Py.truthy_str (param_value form i)
  then Py.setitem parameters (param_name form i) (param_value form i)
  else parameters.

(** Lines 326-337: the dict [parameters] after the loop. *)
Definition collect_parameters (form : ProcedureForm) : Py.dict :=
  if (0 <? num_params form)%nat
  then fold_left (collect_slot form) (seq 0 (num_params form)) []
  else [].

(** [parameters if parameters else None] *)
Definition call_parameters (form : ProcedureForm) : option Py.dict :=
  let parameters := collect_parameters form in
  if Py.truthy_list parameters then Some parameters else None.

(** [render_procedure_interface]: session state, world and banners after. *)
Definition render_procedure_interface (form : ProcedureForm)
    (st : SessionState) (w : World)
    : SessionState * World * list Banner :=
  if negb (is_connected (db_connection st)) then
    (st, w,
     [Warning "⚠️ Please connect to a database first using the sidebar."])
  else if execute_clicked form then
    if negb (Py.truthy_str (procedure_name form)) then
      (st, w, [Error "Please enter a stored procedure name"])
    else
      match execute_stored_procedure (db_connection st)
              (procedure_name form) (call_parameters form) w with
      | ((true, data, message), w') =>
          (set_last_result st data, w', [Success message])
      | ((false, _, message), w') =>
          (set_last_result st None, w', [Error message])
      end
  else (st, w, []).

End Manager.

Arguments drv {Value D} w.
Arguments calls {Value D} w.

(** ** Vocabulary of the statements below *)

(** The driver answers every call of one execution of [procedure_name] on
    handle [h]: cursor() returns [c], the statement runs, the cursor's
    description is [description], fetchall() returns [rows] and leaves the
    world [w']. *)
Definition answered {Value : Type} (D : Driver Value)
    (h : Handle) (procedure_name : string) (parameters : option Py.dict)
    (w : World D) (c : Cursor)
    (description : option (list ColumnDescription))
    (rows : list (list Value)) (w' : World D) : Prop :=
  exists w1 w2,
    do_cursor D h w = (Returned c, w1)
    /\ run_statement D c procedure_name parameters w1 = (Returned tt, w2)
    /\ cursor_description D c (drv w2) = Returned description
    /\ do_fetchall D c w2 = (Returned rows, w').

(** [n] question marks separated by a comma and a space. *)
Definition question_marks (n : nat) : string :=
  Py.join ", " (repeat "?" n).

(** How many times a character occurs in a string. *)
Definition occurrences (a : ascii) (s : string) : nat :=
  count_occ ascii_dec (list_ascii_of_string s) a.

(** The value the last slot named [k] with a non-empty value holds, among the
    first [n] slots of a form. *)
Fixpoint last_entered (name value : nat -> string) (n : nat) (k : string)
    : option string :=
  match n with
  | O => None
  | S n' =>
      if Py.truthy_str (name n') && Py.truthy_str (value n') && (name n' =? k)
      then Some (value n')
      else last_entered name value n' k
  end.

(** Slot [i] of the form is included in the call: its name and value are
    one of the items of the mapping passed to execute_stored_procedure. *)
Definition slot_included (form : ProcedureForm) (i : nat) : Prop :=
  match call_parameters form with
  | Some parameters => In (param_name form i, param_value form i) parameters
  | None => False
  end.

(** The dict [parameters] after the first [n] turns of the loop. *)
Definition parameters_after (form : ProcedureForm) (n : nat) : Py.dict :=
  fold_left (collect_slot form) (seq 0 n) [].

(** A form whose slots hold the given names and values. *)
Definition form_of (name : string) (slots : list (string * string))
    (clicked : bool) : ProcedureForm := {|
  procedure_name := name;
  num_params := length slots;
  param_name := fun i => fst (nth i slots (EmptyString, EmptyString));
  param_value := fun i => snd (nth i slots (EmptyString, EmptyString));
  execute_clicked := clicked
|}.

(** Two slots with the same name. *)
Definition repeated_name : ProcedureForm :=
  form_of "sp_Find" [("a", "1"); ("a", "2")] true.

(** A slot without a value between two slots with the same name. *)
Definition three_slots : ProcedureForm :=
  form_of "sp_Find" [("a", "1"); ("b", EmptyString); ("a", "2")] true.

(** ** A scripted driver

    A driver whose answers are fixed in advance, to run the program on
    concrete inputs.  Its state counts the [close] calls it has seen, so that
    a second [close] can be answered differently from the first. *)

Inductive Cell : Type :=
| CInt (z : Z)
| CStr (s : string)
| CNull
| CFloat (whole : Z)
| CNaN.

(** What pandas makes of records of such cells, as far as the scripted
    servers need it (they return integers, text and NULL).  Records are
    filled up with NULL to the width of the widest; if that width is not the
    number of column labels pandas raises a ValueError.  A column that holds
    integers and NULLs, at least one of each, and nothing else becomes a
    column of floats: [1] turns into [1.0] and NULL into NaN.  Every other
    column keeps its values. *)
Definition is_int (c : Cell) : bool :=
  match c with CInt _ => true | _ => false end.

Definition is_null (c : Cell) : bool :=
  match c with CNull => true | _ => false end.

Definition column_at (rows : list (list Cell)) (j : nat) : list Cell :=
  map (fun row => nth j row CNull) rows.

Definition becomes_float (column : list Cell) : bool :=
  forallb (fun c => is_int c || is_null c) column
  && existsb is_int column && existsb is_null column.

Definition inferred (column : list Cell) (c : Cell) : Cell :=
  if becomes_float column then
    match c with
    | CInt z => CFloat z
    | CNull => CNaN
    | other => other
    end
  else c.

Definition widest (rows : list (list Cell)) : nat :=
  fold_right (fun row width => Nat.max (length row) width) 0%nat rows.

Definition pandas_error (rows : list (list Cell)) (columns : list string)
    : option exn :=
  if (widest rows =? length columns)%nat then None
  else
    Some (OtherException
            (Py.str_of_nat (length columns) ++ " columns passed, passed data had "
             ++ Py.str_of_nat (widest rows) ++ " columns")).

Definition pandas_record (rows : list (list Cell)) (columns : list string)
    (i : nat) : list Cell :=
  map (fun j => inferred (column_at rows j) (nth j (nth i rows []) CNull))
    (seq 0 (length columns)).

Record Script : Type := {
  on_connect : Outcome Handle;
  on_close : nat -> Outcome unit;
  on_cursor : Outcome Cursor;
  on_execute : Outcome unit;
  on_description : Outcome (option (list ColumnDescription));
  on_fetchall : Outcome (list (list Cell))
}.

Definition scripted (s : Script) : Driver Cell := {|
  dstate := nat;
  pyodbc_connect := fun _ _ n => (on_connect s, n);
  connection_close := fun _ n => (on_close s n, S n);
  connection_cursor := fun _ n => (on_cursor s, n);
  cursor_execute := fun _ _ _ n => (on_execute s, n);
  cursor_description := fun _ _ => on_description s;
  cursor_fetchall := fun _ n => (on_fetchall s, n);
  frame_error := pandas_error;
  frame_record := pandas_record
|}.

Definition fresh_world (s : Script) : World (scripted s) :=
  Build_World (scripted s) 0%nat [].

(** pyodbc refuses to fetch from a cursor that has no result set. *)
Definition no_results : Outcome (list (list Cell)) :=
  Raised (PyodbcError "No results.  Previous SQL was not a query.").

(** pyodbc refuses to close a connection twice. *)
Definition close_once (n : nat) : Outcome unit :=
  match n with
  | O => Returned tt
  | S _ => Raised (PyodbcError "Attempt to use a closed connection.")
  end.

Definition id_name_description : list ColumnDescription :=
  [ {| column_0 := "id"; type_code := "int"; null_ok := false |};
    {| column_0 := "name"; type_code := "str"; null_ok := true |} ].

(** A server on which everything works and the procedure returns the
    columns id, name and two rows. *)
Definition two_rows : Script := {|
  on_connect := Returned 1%nat;
  on_close := close_once;
  on_cursor := Returned 7%nat;
  on_execute := Returned tt;
  on_description := Returned (Some id_name_description);
  on_fetchall := Returned [[CInt 1; CStr "a"]; [CInt 2; CStr "b"]]
|}.

(** The same procedure when it selects no row. *)
Definition zero_rows : Script := {|
  on_connect := Returned 1%nat;
  on_close := close_once;
  on_cursor := Returned 7%nat;
  on_execute := Returned tt;
  on_description := Returned (Some id_name_description);
  on_fetchall := Returned []
|}.

(** A procedure that selects one nullable integer column and finds a number
    and a NULL. *)
Definition nullable_column : Script := {|
  on_connect := Returned 1%nat;
  on_close := close_once;
  on_cursor := Returned 7%nat;
  on_execute := Returned tt;
  on_description :=
    Returned (Some [ {| column_0 := "n"; type_code := "int";
                        null_ok := true |} ]);
  on_fetchall := Returned [[CInt 1]; [CNull]]
|}.

(** A server that cannot be reached. *)
Definition unreachable (e : exn) : Script := {|
  on_connect := Raised e;
  on_close := close_once;
  on_cursor := Returned 7%nat;
  on_execute := Returned tt;
  on_description := Returned None;
  on_fetchall := no_results
|}.

(** A connection whose [close] fails. *)
Definition close_fails : Script := {|
  on_connect := Returned 1%nat;
  on_close := fun _ => Raised (PyodbcError "Communication link failure");
  on_cursor := Returned 7%nat;
  on_execute := Returned tt;
  on_description := Returned None;
  on_fetchall := no_results
|}.

(** A server that rejects the statement. *)
Definition statement_rejected : Script := {|
  on_connect := Returned 1%nat;
  on_close := close_once;
  on_cursor := Returned 7%nat;
  on_execute := Raised (PyodbcError "Could not find stored procedure.");
  on_description := Returned None;
  on_fetchall := no_results
|}.

Definition login_refused : Script :=
  unreachable (PyodbcError "Login failed for user 'sa'.").

(** A session that shows the result of an earlier execution. *)
Definition session_with_result : @SessionState Cell := {|
  db_connection := {| connection := Some 1%nat; is_connected := true |};
  connection_status := Some (true, "Connected successfully!");
  last_result :=
    Some {| df_columns := ["id"; "name"];
            df_rows := [[CInt 1; CStr "a"]; [CInt 2; CStr "b"]] |}
|}.

Definition connected_to (h : Handle) : SQLServerConnection :=
  {| connection := Some h; is_connected := true |}.

(** The worlds of a run on [two_rows]: after connecting with Windows
    authentication to Sales on localhost, and after disconnecting. *)
Definition after_connect : World (scripted two_rows) :=
  Build_World (scripted two_rows) 0%nat
    [CallConnect
       "DRIVER={ODBC Driver 17 for SQL Server};SERVER=localhost;DATABASE=Sales;Trusted_Connection=yes;"
       10].

(** After executing sp_GetEmployees without parameters on that connection. *)
Definition after_execution : World (scripted two_rows) :=
  Build_World (scripted two_rows) 0%nat
    [CallConnect
       "DRIVER={ODBC Driver 17 for SQL Server};SERVER=localhost;DATABASE=Sales;Trusted_Connection=yes;"
       10;
     CallCursor 1%nat;
     CallExecute 7%nat "EXEC sp_GetEmployees" None;
     CallFetchall 7%nat].

Definition after_disconnect : World (scripted two_rows) :=
  Build_World (scripted two_rows) 1%nat
    [CallConnect
       "DRIVER={ODBC Driver 17 for SQL Server};SERVER=localhost;DATABASE=Sales;Trusted_Connection=yes;"
       10;
     CallClose 1%nat].

(** ** The rest of the session state *)

(** The dict kept under [stored_connection_info]: it has no password key. *)
Record StoredConnectionInfo : Type := {
  stored_server : string;
  stored_database : string;
  stored_auth_type : string;
  stored_username : string
}.

Definition default_connection_info : StoredConnectionInfo := {|
  stored_server := EmptyString;
  stored_database := EmptyString;
  stored_auth_type := "Windows";
  stored_username := EmptyString
|}.

(** [st.session_state] as a script run finds it: any key may be missing, and
    a key that is present may hold [None]. *)
Record RawSession (Value : Type) : Type := {
  raw_db_connection : option SQLServerConnection;
  raw_connection_status : option (option (bool * string));
  raw_last_result : option (option (DataFrame Value));
  raw_procedure_parameters : option Py.dict;
  raw_show_connection_area : option bool;
  raw_stored_connection_info : option StoredConnectionInfo;
  raw_password_key : option Z
}.
Arguments raw_db_connection {Value} r.
Arguments raw_connection_status {Value} r.
Arguments raw_last_result {Value} r.
Arguments raw_procedure_parameters {Value} r.
Arguments raw_show_connection_area {Value} r.
Arguments raw_stored_connection_info {Value} r.
Arguments raw_password_key {Value} r.

(** [if key not in st.session_state: st.session_state.key = default] *)
Definition if_missing {A : Type} (entry : option A) (default : A) : option A :=
  match entry with
  | Some x => Some x
  | None => Some default
  end.

(** [initialize_session_state] *)
Definition initialize_session_state {Value : Type} (s : RawSession Value)
    : RawSession Value := {|
  raw_db_connection := if_missing (raw_db_connection s) init;
  raw_connection_status := if_missing (raw_connection_status s) None;
  raw_last_result := if_missing (raw_last_result s) None;
  raw_procedure_parameters := if_missing (raw_procedure_parameters s) [];
  raw_show_connection_area := if_missing (raw_show_connection_area s) true;
  raw_stored_connection_info :=
    if_missing (raw_stored_connection_info s) default_connection_info;
  raw_password_key := if_missing (raw_password_key s) 0%Z
|}.

(** The session of a browser that has just opened the page. *)
Definition new_session {Value : Type} : RawSession Value := {|
  raw_db_connection := None;
  raw_connection_status := None;
  raw_last_result := None;
  raw_procedure_parameters := None;
  raw_show_connection_area := None;
  raw_stored_connection_info := None;
  raw_password_key := None
|}.

(** A session in which every key that the sidebar reads is present. *)
Record Session (Value : Type) : Type := {
  core : @SessionState Value;
  show_connection_area : bool;
  stored_connection_info : StoredConnectionInfo;
  password_key : Z
}.
Arguments core {Value} s.
Arguments show_connection_area {Value} s.
Arguments stored_connection_info {Value} s.
Arguments password_key {Value} s.

(** Reading the keys of a session; [None] when one of them is missing. *)
Definition session_of {Value : Type} (r : RawSession Value)
    : option (Session Value) :=
  match raw_db_connection r, raw_connection_status r, raw_last_result r,
        raw_show_connection_area r, raw_stored_connection_info r,
        raw_password_key r with
  | Some c, Some status, Some result, Some shown, Some info, Some key =>
      Some {| core := {| db_connection := c;
                         connection_status := status;
                         last_result := result |};
              show_connection_area := shown;
              stored_connection_info := info;
              password_key := key |}
  | _, _, _, _, _, _ => None
  end.

(** ** The sidebar *)

(** The two options of the authentication select box. *)
Inductive AuthChoice : Type :=
| ChooseWindows
| ChooseSqlServer.

Definition auth_label (a : AuthChoice) : string :=
  match a with
  | ChooseWindows => "Windows"
  | ChooseSqlServer => "SQL Server"
  end.

(** What the sidebar widgets hold during one render pass. *)
Record SidebarForm : Type := {
  settings_clicked : bool;
  server_input : string;
  database_input : string;
  auth_input : AuthChoice;
  username_input : string;
  password_input : string;
  connect_clicked : bool;
  disconnect_clicked : bool
}.

(** Truth value of a variable that is [None] or a [str]. *)
Definition truthy_opt_str (o : option string) : bool :=
  match o with
  | Some s => Py.truthy_str s
  | None => false
  end.

Section Sidebar.

Context {Value : Type} (D : Driver Value).

Definition with_core (s : Session Value) (c : @SessionState Value)
    : Session Value :=
  {| core := c;
     show_connection_area := show_connection_area s;
     stored_connection_info := stored_connection_info s;
     password_key := password_key s |}.

(** Lines 138-146: the settings button, shown to a connected session. *)
Definition toggle_settings (form : SidebarForm) (s : Session Value)
    : Session Value :=
  if is_connected (db_connection (core s)) then
    if settings_clicked form then
      {| core := core s;
         show_connection_area := negb (show_connection_area s);
         stored_connection_info := stored_connection_info s;
         password_key := password_key s |}
    else s
  else s.

(** Lines 256-277: the Connect column.  The last component tells whether
    [st.rerun()] was called, which ends the script run. *)
Definition connect_column (form : SidebarForm)
    (server database auth_type : string) (username password : option string)
    (s : Session Value) (w : World D)
    : Session Value * World D * list Banner * bool :=
  if negb (is_connected (db_connection (core s))) then
    if connect_clicked form then
      if negb (Py.truthy_str server) || negb (Py.truthy_str database) then
        (s, w, [Error "Please provide server and database names"], false)
      else if (auth_type =? "SQL Server")
              && (negb (truthy_opt_str username)
                  || negb (truthy_opt_str password)) then
        (s, w, [Error "Please provide username and password"], false)
      else
        match connect D (db_connection (core s))
                server database auth_type username password w with
        | ((success, message), manager, w') =>
            let status_set :=
              {| db_connection := manager;
                 connection_status := Some (success, message);
                 last_result := last_result (core s) |} in
            if success then
              ({| core := status_set;
                  show_connection_area := show_connection_area s;
                  stored_connection_info :=
                    {| stored_server := server;
                       stored_database := database;
                       stored_auth_type := auth_type;
                       stored_username :=
                         if truthy_opt_str username
                         then Py.str_of_opt username
                         else EmptyString |};
                  password_key := (password_key s + 1)%Z |},
               w', [], true)
            else (with_core s status_set, w', [], false)
        end
    else (s, w, [], false)
  else (s, w, [], false).

(** Lines 279-286: the Disconnect column. *)
Definition disconnect_column (form : SidebarForm)
    (s : Session Value) (w : World D) : Session Value * World D * bool :=
  if is_connected (db_connection (core s)) then
    if disconnect_clicked form then
      match disconnect D (db_connection (core s)) w with
      | ((success, message), manager, w') =>
          (with_core s
             {| db_connection := manager;
                connection_status := Some (false, message);
                last_result := None |},
           w', true)
      end
    else (s, w, false)
  else (s, w, false).

(** Lines 288-294: the status message. *)
Definition status_banner (s : Session Value) : list Banner :=
  match connection_status (core s) with
  | Some (success, message) =>
      if success then [Success ("✅ " ++ message)]
      else [Error ("❌ " ++ message)]
  | None => []
  end.

(** [render_sidebar]: the session, the world, the banners shown (the
    success, error and warning boxes, line 141 first) and whether the run was
    ended by [st.rerun()].  Headers, rules and styles are left out; they read
    no state and write none. *)
Definition render_sidebar (form : SidebarForm)
    (s0 : Session Value) (w : World D)
    : Session Value * World D * list Banner * bool :=
  let s := toggle_settings form s0 in
  let connected := is_connected (db_connection (core s)) in
  let top := if connected then [Success "✅ Connected to Database"] else [] in
  if show_connection_area s || negb connected then
    let server :=
      if connected then stored_server (stored_connection_info s)
      else server_input form in
    let database :=
      if connected then stored_database (stored_connection_info s)
      else database_input form in
    let auth_type :=
      if connected then
        if stored_auth_type (stored_connection_info s) =? "Windows"
        then "Windows" else "SQL Server"
      else auth_label (auth_input form) in
    let typed := negb connected && (auth_type =? "SQL Server") in
    let username := if typed then Some (username_input form) else None in
    let password := if typed then Some (password_input form) else None in
    match connect_column form server database auth_type username password
            s w with
    | (s1, w1, banners, true) => (s1, w1, (top ++ banners)%list, true)
    | (s1, w1, banners, false) =>
        match disconnect_column form s1 w1 with
        | (s2, w2, true) => (s2, w2, (top ++ banners)%list, true)
        | (s2, w2, false) =>
            (s2, w2, (top ++ banners ++ status_banner s2)%list, false)
        end
    end
  else (s, w, top, false).

End Sidebar.

(** ** Results and export *)

Record ExportForm : Type := {
  include_timestamp : bool;
  base_filename : string;
  copy_clicked : bool
}.

(** [data.empty]: one of the two axes has length 0. *)
Definition df_is_empty {Value : Type} (d : DataFrame Value) : bool :=
  match df_columns d, df_rows d with
  | _ :: _, _ :: _ => false
  | _, _ => true
  end.

(** Line 412, on a string whose characters are the characters of the Python
    [str]: [csv_data[:1000] + "..." if len(csv_data) > 1000 else csv_data]. *)
Definition csv_preview (csv_data : string) : string :=
  if (1000 <? String.length csv_data)%nat
  then substring 0 1000 csv_data ++ "..."
  else csv_data.

(** What the results tab shows. *)
Inductive ResultsView (Value : Type) : Type :=
| Info (text : string)
| Export (table : DataFrame Value) (full_filename : string)
    (download_data download_file_name download_mime : string)
    (copied : option string) (preview : string).
Arguments Info {Value} text.
Arguments Export {Value} table full_filename download_data download_file_name
  download_mime copied preview.

Section Results.

Context {Value : Type}.

(** [data.to_csv(index=False)] is pandas' business. *)
Variable to_csv : DataFrame Value -> string.

(** [render_results_and_export]; [timestamp] is what
    [datetime.now().strftime("%Y%m%d_%H%M%S")] gives during the pass. *)
Definition render_results_and_export (form : ExportForm) (timestamp : string)
    (st : @SessionState Value) : ResultsView Value :=
  match last_result st with
  | Some data =>
      if negb (df_is_empty data) then
        let full_filename :=
          if include_timestamp form
          then base_filename form ++ "_" ++ timestamp ++ ".csv"
          else base_filename form ++ ".csv" in
        let csv_data := to_csv data in
        Export data full_filename csv_data full_filename "text/csv"
          (if copy_clicked form then Some csv_data else None)
          (csv_preview csv_data)
      else Info "No data returned from the stored procedure."
  | None => Info "Execute a stored procedure to see results here."
  end.

End Results.

(** ** The script *)

(** Writing the keys of a session back into [st.session_state]. *)
Definition store {Value : Type} (r : RawSession Value) (s : Session Value)
    : RawSession Value := {|
  raw_db_connection := Some (db_connection (core s));
  raw_connection_status := Some (connection_status (core s));
  raw_last_result := Some (last_result (core s));
  raw_procedure_parameters := raw_procedure_parameters r;
  raw_show_connection_area := Some (show_connection_area s);
  raw_stored_connection_info := Some (stored_connection_info s);
  raw_password_key := Some (password_key s)
|}.

Section Script.

Context {Value : Type} (D : Driver Value).
Variable to_csv : DataFrame Value -> string.

(** [main]: one run of the script.  The session state after it, the world,
    the banners, and what the results tab shows; a run ended by [st.rerun()]
    in the sidebar renders no tab.  The first [match] cannot fail: after
    [initialize_session_state] every key is present. *)
Definition main (sidebar : SidebarForm) (form : ProcedureForm)
    (export : ExportForm) (timestamp : string)
    (r : RawSession Value) (w : World D)
    : RawSession Value * World D * list Banner * option (ResultsView Value) :=
  let r0 := initialize_session_state r in
  match session_of r0 with
  | Some s =>
      match render_sidebar D sidebar s w with
      | (s1, w1, banners, true) => (store r0 s1, w1, banners, None)
      | (s1, w1, banners, false) =>
          match render_procedure_interface D form (core s1) w1 with
          | (c2, w2, banners2) =>
              (store r0 (with_core s1 c2), w2, (banners ++ banners2)%list,
               Some (render_results_and_export to_csv export timestamp c2))
          end
      end
  | None => (r0, w, [], None)
  end.

End Script.

(** ** More vocabulary *)

(** One of the driver's answers during an execution on handle [h] is an
    exception [e], raised in world [w']: by cursor(), by the statement, by
    reading the description or by fetchall(). *)
Inductive raised_at {Value : Type} (D : Driver Value) (h : Handle)
    (procedure_name : string) (parameters : option Py.dict)
    (w : World D) (e : exn) (w' : World D) : Prop :=
| RaisedByCursor :
    do_cursor D h w = (Raised e, w') ->
    raised_at D h procedure_name parameters w e w'
| RaisedByStatement (c : Cursor) (w1 : World D) :
    do_cursor D h w = (Returned c, w1) ->
    run_statement D c procedure_name parameters w1 = (Raised e, w') ->
    raised_at D h procedure_name parameters w e w'
| RaisedByDescription (c : Cursor) (w1 : World D) (u : unit) :
    do_cursor D h w = (Returned c, w1) ->
    run_statement D c procedure_name parameters w1 = (Returned u, w') ->
    cursor_description D c (drv w') = Raised e ->
    raised_at D h procedure_name parameters w e w'
| RaisedByFetchall (c : Cursor) (w1 w2 : World D) (u : unit)
    (description : option (list ColumnDescription)) :
    do_cursor D h w = (Returned c, w1) ->
    run_statement D c procedure_name parameters w1 = (Returned u, w2) ->
    cursor_description D c (drv w2) = Returned description ->
    do_fetchall D c w2 = (Raised e, w') ->
    raised_at D h procedure_name parameters w e w'.

(** The message of a failed execution. *)
Definition execution_error (e : exn) : string :=
  match e with
  | PyodbcError text => "SQL Error: " ++ text
  | OtherException text => "Unexpected error: " ++ text
  end.

(** A slot of the form has both its name and its value filled in. *)
Definition filled_in (form : ProcedureForm) (i : nat) : bool :=
  Py.truthy_str (param_name form i) && Py.truthy_str (param_value form i).

(** ** More scripted servers and inputs *)

(** A connection on which no cursor can be opened. *)
Definition cursor_fails : Script := {|
  on_connect := Returned 1%nat;
  on_close := close_once;
  on_cursor := Raised (OtherException "out of memory");
  on_execute := Returned tt;
  on_description := Returned None;
  on_fetchall := no_results
|}.

(** A procedure without a result set, on a driver that refuses to fetch
    from it, as pyodbc does. *)
Definition fetch_refused : Script := {|
  on_connect := Returned 1%nat;
  on_close := close_once;
  on_cursor := Returned 7%nat;
  on_execute := Returned tt;
  on_description := Returned None;
  on_fetchall := no_results
|}.

(** An object marked connected holds a handle. *)
Definition flag_needs_handle (m : SQLServerConnection) : Prop :=
  is_connected m = true -> connection m <> None.

(** A connected session that has no result yet. *)
Definition session_connected : @SessionState Cell := {|
  db_connection := {| connection := Some 1%nat; is_connected := true |};
  connection_status := Some (true, "Connected successfully!");
  last_result := None
|}.

(** A form asking for sp_GetEmployees with one parameter. *)
Definition employees_form : ProcedureForm :=
  form_of "sp_GetEmployees" [("dept", "42")] true.

(** The world after that form has run on [two_rows]. *)
Definition after_employees (s : Script) : World (scripted s) :=
  Build_World (scripted s) 0%nat
    [CallCursor 1%nat;
     CallExecute 7%nat "EXEC sp_GetEmployees ?" (Some ["42"]);
     CallFetchall 7%nat].

(** Three slots with different names, the second without a value. *)
Definition gap_form : ProcedureForm :=
  form_of "sp_Find" [("a", "1"); ("b", EmptyString); ("c", "3")] true.

(** The credentials the sidebar hands to connect when the session is not
    connected: the two text inputs with SQL Server authentication, [None]
    with Windows authentication, where the inputs are not shown. *)
Definition typed_username (form : SidebarForm) : option string :=
  match auth_input form with
  | ChooseSqlServer => Some (username_input form)
  | ChooseWindows => None
  end.

Definition typed_password (form : SidebarForm) : option string :=
  match auth_input form with
  | ChooseSqlServer => Some (password_input form)
  | ChooseWindows => None
  end.

(** The connect form is complete: server and database are given, and with
    SQL Server authentication so are username and password. *)
Definition form_complete (form : SidebarForm) : Prop :=
  server_input form <> EmptyString
  /\ database_input form <> EmptyString
  /\ (auth_input form = ChooseSqlServer ->
      username_input form <> EmptyString
      /\ password_input form <> EmptyString).

(** A sidebar in which Connect was clicked with the given entries. *)
Definition connect_form (server database : string) (auth : AuthChoice)
    (username password : string) : SidebarForm := {|
  settings_clicked := false;
  server_input := server;
  database_input := database;
  auth_input := auth;
  username_input := username;
  password_input := password;
  connect_clicked := true;
  disconnect_clicked := false
|}.

(** A sidebar in which Disconnect was clicked. *)
Definition disconnect_form : SidebarForm := {|
  settings_clicked := false;
  server_input := EmptyString;
  database_input := EmptyString;
  auth_input := ChooseWindows;
  username_input := EmptyString;
  password_input := EmptyString;
  connect_clicked := false;
  disconnect_clicked := true
|}.

(** A sidebar in which nothing was clicked. *)
Definition idle_sidebar : SidebarForm := {|
  settings_clicked := false;
  server_input := "localhost";
  database_input := "Sales";
  auth_input := ChooseWindows;
  username_input := EmptyString;
  password_input := EmptyString;
  connect_clicked := false;
  disconnect_clicked := false
|}.

(** The session right after the first [initialize_session_state]. *)
Definition first_session : Session Cell := {|
  core := {| db_connection := init;
             connection_status := None;
             last_result := None |};
  show_connection_area := true;
  stored_connection_info := default_connection_info;
  password_key := 0%Z
|}.

(** A connected session that shows a result. *)
Definition working_session : Session Cell := {|
  core := session_with_result;
  show_connection_area := true;
  stored_connection_info :=
    {| stored_server := "localhost";
       stored_database := "Sales";
       stored_auth_type := "Windows";
       stored_username := EmptyString |};
  password_key := 1%Z
|}.

(** A plain CSV writer for frames of scripted cells; it stands in for
    pandas when the script is run on concrete inputs. *)
Definition cell_text (c : Cell) : string :=
  match c with
  | CInt z => NilZero.string_of_int (Z.to_int z)
  | CStr s => s
  | CNull => EmptyString
  | CFloat whole => NilZero.string_of_int (Z.to_int whole) ++ ".0"
  | CNaN => EmptyString
  end.

Definition newline : string := String (ascii_of_nat 10) EmptyString.

Definition plain_csv (d : DataFrame Cell) : string :=
  Py.join "," (df_columns d) ++ newline
  ++ String.concat EmptyString
       (map (fun row => Py.join "," (map cell_text row) ++ newline)
          (df_rows d)).

(** The stored session of a connected browser that shows a result. *)
Definition working_raw : RawSession Cell := store new_session working_session.

(** The export form as the page first shows it. *)
Definition default_export : ExportForm := {|
  include_timestamp := true;
  base_filename := "stored_procedure_results";
  copy_clicked := false
|}.

(** The frame of the two scripted rows. *)
Definition employees_frame : DataFrame Cell :=
  {| df_columns := ["id"; "name"];
     df_rows := [[CInt 1; CStr "a"]; [CInt 2; CStr "b"]] |}.

(** * Properties of the connection manager *)

Local Open Scope list_scope.

Section ManagerFacts.

Context {Value : Type} (D : Driver Value).

Lemma logged_eq {A : Type} (ev : DriverCall)
    (f : dstate D -> Outcome A * dstate D) (w : World D) r s' :
  f (drv w) = (r, s') ->
  logged D ev f w = (r, {| drv := s'; calls := calls w ++ [ev] |}).
Proof. intros E. unfold logged. now rewrite E. Qed.

Lemma logged_calls {A : Type} (ev : DriverCall)
    (f : dstate D -> Outcome A * dstate D) (w : World D) :
  calls (snd (logged D ev f w)) = calls w ++ [ev].
Proof. unfold logged. now destruct (f (drv w)). Qed.

End ManagerFacts.

(** C1: whatever the procedure name and the parameters, a manager that is not
    connected ([is_connected] false, or no connection object) answers
    (False, None, "No active database connection") and leaves the world as it
    was: the driver state is untouched and no call is logged. *)
Theorem execute_refused_when_not_connected
    {Value : Type} (D : Driver Value) (self : SQLServerConnection)
    (name : string) (parameters : option Py.dict) (w : World D) :
  is_connected self = false \/ connection self = None ->
  execute_stored_procedure D self name parameters w
  = ((false, None, "No active database connection"), w).
Proof.
  intros [Hc | Hn]; unfold execute_stored_procedure.
  - now rewrite Hc.
  - rewrite Hn. simpl. now rewrite orb_true_r.
Qed.

Lemma execute_refused_when_not_connected_witness :
  (is_connected init = false \/ connection init = None)
  /\ execute_stored_procedure (scripted two_rows) init "sp_GetEmployees"
       (Some [("dept", "42")]) (fresh_world two_rows)
     = ((false, None, "No active database connection"), fresh_world two_rows).
Proof.
  split.
  - left. reflexivity.
  - apply (execute_refused_when_not_connected (scripted two_rows)).
    left. reflexivity.
Defined.

(** ** connect *)

(** X2: when pyodbc.connect returns a handle, connect returns
    (True, "Connected successfully!"), stores that handle in place of whatever
    the object held, marks the object connected, and the one call it made is
    that connect. *)
Lemma connect_success
    {Value : Type} (D : Driver Value) (self : SQLServerConnection)
    (server database auth_type : string) (username password : option string)
    (w : World D) (h : Handle) (s' : dstate D) :
  pyodbc_connect D
    (connection_string server database auth_type username password) 10 (drv w)
  = (Returned h, s') ->
  connect D self server database auth_type username password w
  = ((true, "Connected successfully!"), connected_to h,
     {| drv := s';
        calls := calls w ++
          [CallConnect
             (connection_string server database auth_type username password)
             10] |}).
Proof.
  intros E. unfold connect, do_connect.
  now rewrite (logged_eq D _ _ w _ _ E).
Qed.

(** C7: when opening the connection raises, connect returns False with a
    message and the object has [is_connected] false (its [connection] field
    is not assigned).  A pyodbc error gives "Connection failed: " followed by
    the driver's text, any other exception gives "Unexpected error: " followed
    by its text; in both cases connect returns normally. *)
Theorem connect_failure_leaves_not_connected
    {Value : Type} (D : Driver Value) (self : SQLServerConnection)
    (server database auth_type : string) (username password : option string)
    (w : World D) (e : exn) (s' : dstate D) :
  pyodbc_connect D
    (connection_string server database auth_type username password) 10 (drv w)
  = (Raised e, s') ->
  connect D self server database auth_type username password w
  = ((false,
      match e with
      | PyodbcError text => ("Connection failed: " ++ text)%string
      | OtherException text => ("Unexpected error: " ++ text)%string
      end),
     {| connection := connection self; is_connected := false |},
     {| drv := s';
        calls := calls w ++
          [CallConnect
             (connection_string server database auth_type username password)
             10] |}).
Proof.
  intros E. unfold connect, do_connect.
  rewrite (logged_eq D _ _ w _ _ E).
  now destruct e.
Qed.

Lemma connect_failure_leaves_not_connected_witness :
  pyodbc_connect (scripted login_refused)
    (connection_string "localhost" "Sales" "SQL Server" (Some "sa") (Some "pw"))
    10 (drv (fresh_world login_refused))
  = (Raised (PyodbcError "Login failed for user 'sa'."), 0%nat)
  /\ connect (scripted login_refused) init "localhost" "Sales" "SQL Server"
       (Some "sa") (Some "pw") (fresh_world login_refused)
     = ((false, "Connection failed: Login failed for user 'sa'."%string),
        init,
        Build_World (scripted login_refused) 0%nat
          [CallConnect
             "DRIVER={ODBC Driver 17 for SQL Server};SERVER=localhost;DATABASE=Sales;UID=sa;PWD=pw;"
             10]).
Proof.
  split.
  - reflexivity.
  - exact (connect_failure_leaves_not_connected (scripted login_refused)
             init "localhost" "Sales" "SQL Server" (Some "sa") (Some "pw")
             (fresh_world login_refused)
             (PyodbcError "Login failed for user 'sa'.") 0%nat eq_refl).
Defined.

(** The other class of failure, on the same input. *)
Example connect_unexpected_failure :
  let S := unreachable (OtherException "codec can't decode byte") in
  connect (scripted S) init "localhost" "Sales" "Windows" None None
    (fresh_world S)
  = ((false, "Unexpected error: codec can't decode byte"%string),
     init,
     Build_World (scripted S) 0%nat
       [CallConnect
          "DRIVER={ODBC Driver 17 for SQL Server};SERVER=localhost;DATABASE=Sales;Trusted_Connection=yes;"
          10]).
Proof. reflexivity. Qed.

(** ** disconnect *)

(** X5: an object that holds no handle (a new one, or one whose connects
    all failed) answers disconnect with (True, "No active connection"),
    unchanged and without a call to the driver. *)
Lemma disconnect_without_handle
    {Value : Type} (D : Driver Value) (self : SQLServerConnection)
    (w : World D) :
  connection self = None ->
  disconnect D self w = ((true, "No active connection"), self, w).
Proof. intros E. unfold disconnect. now rewrite E. Qed.

Lemma disconnect_with_handle_closes
    {Value : Type} (D : Driver Value) (self : SQLServerConnection)
    (h : Handle) (w : World D) :
  connection self = Some h ->
  calls (snd (disconnect D self w)) = calls w ++ [CallClose h]
  /\ connection (snd (fst (disconnect D self w))) = Some h
  /\ fst (fst (disconnect D self w)) <> (true, "No active connection"%string).
Proof.
  intros E. unfold disconnect, do_close. rewrite E.
  pose proof (logged_calls D (CallClose h) (connection_close D h) w) as L.
  destruct (logged D (CallClose h) (connection_close D h) w) as [[u | e] w'];
    simpl in *; repeat split; auto; discriminate.
Qed.

(** X4: when the object holds a handle and closing it returns, disconnect
    returns (True, "Disconnected successfully") after that one close call and
    marks the object not connected; the handle stays in the object. *)
Lemma disconnect_success
    {Value : Type} (D : Driver Value) (self : SQLServerConnection)
    (h : Handle) (w : World D) (s' : dstate D) :
  connection self = Some h ->
  connection_close D h (drv w) = (Returned tt, s') ->
  disconnect D self w
  = ((true, "Disconnected successfully"),
     {| connection := Some h; is_connected := false |},
     {| drv := s'; calls := calls w ++ [CallClose h] |}).
Proof.
  intros E C. unfold disconnect, do_close. rewrite E.
  now rewrite (logged_eq D _ _ w _ _ C).
Qed.

(** C3 as stated fails: with a handle whose close raises, disconnect returns
    False with a message, and the object still holds the handle and is still
    marked connected. *)
Lemma disconnect_close_failure_keeps_handle :
  disconnect (scripted close_fails) (connected_to 1) (fresh_world close_fails)
  = ((false, "Error disconnecting: Communication link failure"%string),
     {| connection := Some 1%nat; is_connected := true |},
     Build_World (scripted close_fails) 1%nat [CallClose 1%nat])
  /\ connection
       (snd (fst (disconnect (scripted close_fails) (connected_to 1)
                    (fresh_world close_fails))))
     <> None.
Proof.
  split.
  - reflexivity.
  - discriminate.
Qed.

(** C3, amended: when the object holds a handle and closing it raises,
    disconnect returns False with "Error disconnecting: " followed by the
    exception's text, after that one close call, and the object is unchanged:
    it keeps the handle and its [is_connected] flag. *)
Theorem disconnect_close_failure_reported
    {Value : Type} (D : Driver Value) (self : SQLServerConnection)
    (h : Handle) (w : World D) (e : exn) (s' : dstate D) :
  connection self = Some h ->
  connection_close D h (drv w) = (Raised e, s') ->
  disconnect D self w
  = ((false, ("Error disconnecting: " ++ str_of_exn e)%string),
     self,
     {| drv := s'; calls := calls w ++ [CallClose h] |}).
Proof.
  intros E C. unfold disconnect, do_close. rewrite E.
  now rewrite (logged_eq D _ _ w _ _ C).
Qed.

Lemma disconnect_close_failure_reported_witness :
  connection (connected_to 1) = Some 1%nat
  /\ connection_close (scripted close_fails) 1%nat (drv (fresh_world close_fails))
     = (Raised (PyodbcError "Communication link failure"), 1%nat)
  /\ disconnect (scripted close_fails) (connected_to 1) (fresh_world close_fails)
     = ((false, "Error disconnecting: Communication link failure"%string),
        connected_to 1,
        Build_World (scripted close_fails) 1%nat [CallClose 1%nat]).
Proof.
  split; [reflexivity | split; [reflexivity |]].
  apply (disconnect_close_failure_reported (scripted close_fails)
           (connected_to 1) 1%nat (fresh_world close_fails)
           (PyodbcError "Communication link failure") 1%nat);
    reflexivity.
Defined.

(** What a connect that reports success leaves behind. *)
Lemma connect_true_inv
    {Value : Type} (D : Driver Value) (self : SQLServerConnection)
    (server database auth_type : string) (username password : option string)
    (w : World D) (message : string) (m1 : SQLServerConnection) (w1 : World D) :
  connect D self server database auth_type username password w
  = ((true, message), m1, w1) ->
  exists h, m1 = connected_to h.
Proof.
  unfold connect.
  destruct (do_connect D _ 10 w) as [[h | [t | t]] w']; intros E;
    inversion E; subst.
  now exists h.
Qed.

(** What a disconnect that reports success leaves behind, when the object
    held a handle. *)
Lemma disconnect_true_inv
    {Value : Type} (D : Driver Value) (h : Handle) (flag : bool)
    (w : World D) (message : string) (m2 : SQLServerConnection) (w2 : World D) :
  disconnect D {| connection := Some h; is_connected := flag |} w
  = ((true, message), m2, w2) ->
  m2 = {| connection := Some h; is_connected := false |}.
Proof.
  unfold disconnect. simpl.
  destruct (do_close D h w) as [[u | e] w']; intros E; inversion E; subst.
  reflexivity.
Qed.

(** C2: after a connect and a disconnect that both report success the object
    has [is_connected] false, yet it still holds the handle, so the next
    disconnect does not take the "No active connection" line: it calls close on
    the same handle again and reports what that call does. *)
Theorem disconnect_twice_closes_again
    {Value : Type} (D : Driver Value) (self : SQLServerConnection)
    (server database auth_type : string) (username password : option string)
    (w w1 w2 : World D) (message1 message2 : string)
    (m1 m2 : SQLServerConnection) :
  connect D self server database auth_type username password w
  = ((true, message1), m1, w1) ->
  disconnect D m1 w1 = ((true, message2), m2, w2) ->
  is_connected m2 = false
  /\ (exists h,
        connection m2 = Some h
        /\ calls (snd (disconnect D m2 w2)) = calls w2 ++ [CallClose h])
  /\ fst (fst (disconnect D m2 w2)) <> (true, "No active connection"%string).
Proof.
  intros Hc Hd.
  destruct (connect_true_inv D _ _ _ _ _ _ _ _ _ _ Hc) as [h ->].
  apply disconnect_true_inv in Hd. subst m2.
  destruct (disconnect_with_handle_closes D
              {| connection := Some h; is_connected := false |} h w2 eq_refl)
    as (L & _ & N).
  split; [reflexivity |].
  split; [| exact N].
  exists h. split; [reflexivity | exact L].
Qed.

Lemma disconnect_twice_closes_again_witness :
  (connect (scripted two_rows) init "localhost" "Sales" "Windows" None None
     (fresh_world two_rows)
   = ((true, "Connected successfully!"%string), connected_to 1, after_connect)
   /\ disconnect (scripted two_rows) (connected_to 1) after_connect
      = ((true, "Disconnected successfully"%string),
         {| connection := Some 1%nat; is_connected := false |},
         after_disconnect))
  /\ (is_connected {| connection := Some 1%nat; is_connected := false |} = false
      /\ (exists h,
            connection {| connection := Some 1%nat; is_connected := false |}
            = Some h
            /\ calls (snd (disconnect (scripted two_rows)
                             {| connection := Some 1%nat; is_connected := false |}
                             after_disconnect))
               = calls after_disconnect ++ [CallClose h])
      /\ fst (fst (disconnect (scripted two_rows)
                     {| connection := Some 1%nat; is_connected := false |}
                     after_disconnect))
         <> (true, "No active connection"%string)).
Proof.
  split.
  - split; reflexivity.
  - exact (disconnect_twice_closes_again (scripted two_rows) init
             "localhost" "Sales" "Windows" None None
             (fresh_world two_rows) after_connect after_disconnect
             "Connected successfully!" "Disconnected successfully"
             (connected_to 1)
             {| connection := Some 1%nat; is_connected := false |}
             eq_refl eq_refl).
Defined.

(** The run of C2 on a driver that, like pyodbc, refuses a second close. *)
Example disconnect_twice_on_pyodbc :
  let D := scripted two_rows in
  let '(r1, m1, w1) :=
    connect D init "localhost" "Sales" "Windows" None None
      (fresh_world two_rows) in
  let '(r2, m2, w2) := disconnect D m1 w1 in
  let '(r3, m3, w3) := disconnect D m2 w2 in
  r1 = (true, "Connected successfully!"%string)
  /\ r2 = (true, "Disconnected successfully"%string)
  /\ m2 = {| connection := Some 1%nat; is_connected := false |}
  /\ r3 = (false,
           "Error disconnecting: Attempt to use a closed connection."%string)
  /\ m3 = m2.
Proof. cbv. repeat split. Qed.

(** ** execute_stored_procedure *)

(** What from_records gives when it returns: the labels it was given and one
    record per input record. *)
Lemma from_records_shape
    {Value : Type} (D : Driver Value) (rows : list (list Value))
    (columns : list string) (df : DataFrame Value) :
  from_records D rows columns = Returned df ->
  df_columns df = columns /\ length (df_rows df) = length rows.
Proof.
  unfold from_records. destruct (frame_error D rows columns); intros E;
    inversion E; subst; simpl.
  split; [reflexivity |]. now rewrite length_map, length_seq.
Qed.

(** The result of an execution that the driver answers. *)
Lemma execute_answered
    {Value : Type} (D : Driver Value) (self : SQLServerConnection)
    (h : Handle) (name : string) (parameters : option Py.dict)
    (w : World D) (c : Cursor) (description : option (list ColumnDescription))
    (rows : list (list Value)) (w' : World D) :
  is_connected self = true ->
  connection self = Some h ->
  answered D h name parameters w c description rows w' ->
  execute_stored_procedure D self name parameters w
  = (match description, rows with
     | Some ((_ :: _) as d), _ :: _ =>
         match from_records D rows (map column_0 d) with
         | Returned df =>
             (true, Some df,
              ("Procedure executed successfully. "
               ++ Py.str_of_nat (length rows) ++ " rows returned.")%string)
         | Raised e => (false, None, execution_error e)
         end
     | _, _ =>
         (true, Some DataFrame_empty,
          "Procedure executed successfully. No data returned."%string)
     end, w').
Proof.
  intros Hi Hc (w1 & w2 & E1 & E2 & E3 & E4).
  unfold execute_stored_procedure. rewrite Hi, Hc. simpl.
  unfold execute_body, bind, read_description, ret.
  rewrite E1, E2, E3, E4.
  destruct description as [[| col d] |]; destruct rows as [| r rows];
    try reflexivity.
  cbn [Py.truthy_opt_list Py.truthy_list andb]. unfold computed.
  destruct (from_records D (r :: rows) (map column_0 (col :: d)))
    as [df | [t | t]]; reflexivity.
Qed.

(** The length printed in the message reads back as the number of rows. *)
Lemma str_of_nat_reads_back (n : nat) :
  option_map Nat.of_uint (NilEmpty.uint_of_string (Py.str_of_nat n)) = Some n.
Proof.
  unfold Py.str_of_nat. rewrite NilEmpty.usu. simpl.
  now rewrite DecimalNat.Unsigned.of_to.
Qed.

(** C4 as stated fails: a procedure that selects one nullable integer
    column and finds 1 and NULL.  The call returns True and a frame, but the
    frame holds what pandas made of the rows, the floats 1.0 and NaN, not the
    fetched rows. *)
Lemma nullable_column_values_converted :
  execute_stored_procedure (scripted nullable_column) (connected_to 1)
    "sp_Stock" None (fresh_world nullable_column)
  = ((true,
      Some {| df_columns := ["n"%string];
              df_rows := [[CFloat 1]; [CNaN]] |},
      "Procedure executed successfully. 2 rows returned."%string),
     Build_World (scripted nullable_column) 0%nat
       [CallCursor 1%nat; CallExecute 7%nat "EXEC sp_Stock" None;
        CallFetchall 7%nat])
  /\ on_fetchall nullable_column = Returned [[CInt 1]; [CNull]]
  /\ {| df_columns := ["n"%string]; df_rows := [[CFloat 1]; [CNaN]] |}
     <> {| df_columns := ["n"%string]; df_rows := [[CInt 1]; [CNull]] |}.
Proof.
  split; [reflexivity |]. split; [reflexivity |]. discriminate.
Qed.

(** C4, amended: a connected execution that the driver answers with a
    non-empty description and at least one row hands the fetched rows and the
    description's column names, in the driver's order, to from_records.  When
    that returns a frame, the call returns True, that frame (labelled with
    exactly those column names, holding one record per fetched row, the values
    as pandas converts them) and the message "Procedure executed
    successfully. N rows returned." where N, in decimal, is the number of
    fetched rows.  When from_records raises, the call returns False, no frame
    and "Unexpected error: " followed by the text ("SQL Error: " for a pyodbc
    error). *)
Theorem execute_returns_result_set
    {Value : Type} (D : Driver Value) (self : SQLServerConnection)
    (h : Handle) (name : string) (parameters : option Py.dict)
    (w : World D) (c : Cursor) (d : list ColumnDescription)
    (rows : list (list Value)) (w' : World D) :
  is_connected self = true ->
  connection self = Some h ->
  answered D h name parameters w c (Some d) rows w' ->
  d <> [] ->
  rows <> [] ->
  execute_stored_procedure D self name parameters w
  = (match from_records D rows (map column_0 d) with
     | Returned df =>
         (true, Some df,
          ("Procedure executed successfully. "
           ++ Py.str_of_nat (length rows) ++ " rows returned.")%string)
     | Raised (PyodbcError text) =>
         (false, None, ("SQL Error: " ++ text)%string)
     | Raised (OtherException text) =>
         (false, None, ("Unexpected error: " ++ text)%string)
     end, w')
  /\ (forall df,
        from_records D rows (map column_0 d) = Returned df ->
        df_columns df = map column_0 d
        /\ length (df_rows df) = length rows)
  /\ option_map Nat.of_uint
       (NilEmpty.uint_of_string (Py.str_of_nat (length rows)))
     = Some (length rows).
Proof.
  intros Hi Hc Ha Hd Hr.
  split; [| split; [intros df; apply from_records_shape
                   | apply str_of_nat_reads_back]].
  rewrite (execute_answered D self h name parameters w c _ rows w' Hi Hc Ha).
  destruct d as [| col d]; [contradiction |].
  destruct rows as [| r rows]; [contradiction |].
  destruct (from_records D (r :: rows) (map column_0 (col :: d)))
    as [df | [t | t]]; reflexivity.
Qed.

Lemma execute_returns_result_set_witness :
  (is_connected (connected_to 1) = true
   /\ connection (connected_to 1) = Some 1%nat
   /\ answered (scripted two_rows) 1%nat "sp_GetEmployees" None
        after_connect 7%nat (Some id_name_description)
        [[CInt 1; CStr "a"]; [CInt 2; CStr "b"]] after_execution
   /\ id_name_description <> []
   /\ [[CInt 1; CStr "a"]; [CInt 2; CStr "b"]] <> [])
  /\ (execute_stored_procedure (scripted two_rows) (connected_to 1)
        "sp_GetEmployees" None after_connect
      = ((true,
          Some {| df_columns := ["id"; "name"]%string;
                  df_rows := [[CInt 1; CStr "a"]; [CInt 2; CStr "b"]] |},
          "Procedure executed successfully. 2 rows returned."%string),
         after_execution)
      /\ (forall df,
            from_records (scripted two_rows)
              [[CInt 1; CStr "a"]; [CInt 2; CStr "b"]]
              (map column_0 id_name_description)
            = Returned df ->
            df_columns df = map column_0 id_name_description
            /\ length (df_rows df)
               = length [[CInt 1; CStr "a"]; [CInt 2; CStr "b"]])
      /\ option_map Nat.of_uint
           (NilEmpty.uint_of_string
              (Py.str_of_nat (length [[CInt 1; CStr "a"]; [CInt 2; CStr "b"]])))
         = Some (length [[CInt 1; CStr "a"]; [CInt 2; CStr "b"]])).
Proof.
  assert (A : answered (scripted two_rows) 1%nat "sp_GetEmployees" None
                after_connect 7%nat (Some id_name_description)
                [[CInt 1; CStr "a"]; [CInt 2; CStr "b"]] after_execution).
  { unfold answered. do 2 eexists. repeat split. }
  split.
  - repeat split; try discriminate. exact A.
  - apply (execute_returns_result_set (scripted two_rows) (connected_to 1)
             1%nat "sp_GetEmployees" None after_connect 7%nat
             id_name_description
             [[CInt 1; CStr "a"]; [CInt 2; CStr "b"]] after_execution);
      [reflexivity | reflexivity | exact A | discriminate | discriminate].
Defined.

(** When the driver does answer, an execution without rows or without a
    description (None or an empty one) returns True, the empty frame and the
    message "Procedure executed successfully. No data returned.". *)
Lemma execute_returns_no_data
    {Value : Type} (D : Driver Value) (self : SQLServerConnection)
    (h : Handle) (name : string) (parameters : option Py.dict)
    (w : World D) (c : Cursor) (description : option (list ColumnDescription))
    (rows : list (list Value)) (w' : World D) :
  is_connected self = true ->
  connection self = Some h ->
  answered D h name parameters w c description rows w' ->
  rows = [] \/ description = None \/ description = Some [] ->
  execute_stored_procedure D self name parameters w
  = ((true,
      Some {| df_columns := []; df_rows := [] |},
      "Procedure executed successfully. No data returned."%string),
     w').
Proof.
  intros Hi Hc Ha Hn.
  rewrite (execute_answered D self h name parameters w c _ rows w' Hi Hc Ha).
  destruct Hn as [-> | [-> | ->]].
  - now destruct description as [[| col d] |].
  - reflexivity.
  - reflexivity.
Qed.

(** C5: the claim does not hold of the code for a procedure that returns
    no result set.  Its cursor has no description, and on a driver that, like
    pyodbc, raises in fetchall() when there is nothing to fetch from, the
    connected execution returns False, no frame and "SQL Error: " followed by
    the driver's text, not the empty frame with "No data returned.": line 97
    fetches whatever line 96 found. *)
Theorem no_result_set_reported_as_failure
    {Value : Type} (D : Driver Value) (self : SQLServerConnection)
    (h : Handle) (name : string) (parameters : option Py.dict)
    (w w1 w2 w' : World D) (c : Cursor) (text : string) :
  is_connected self = true ->
  connection self = Some h ->
  do_cursor D h w = (Returned c, w1) ->
  run_statement D c name parameters w1 = (Returned tt, w2) ->
  cursor_description D c (drv w2) = Returned None ->
  do_fetchall D c w2 = (Raised (PyodbcError text), w') ->
  execute_stored_procedure D self name parameters w
  = ((false, None, ("SQL Error: " ++ text)%string), w').
Proof.
  intros Hi Hc E1 E2 E3 E4.
  unfold execute_stored_procedure. rewrite Hi, Hc. simpl.
  unfold execute_body, bind, read_description.
  now rewrite E1, E2, E3, E4.
Qed.

Lemma no_result_set_reported_as_failure_witness :
  (is_connected (connected_to 1) = true
   /\ connection (connected_to 1) = Some 1%nat
   /\ do_cursor (scripted fetch_refused) 1%nat (fresh_world fetch_refused)
      = (Returned 7%nat,
         Build_World (scripted fetch_refused) 0%nat [CallCursor 1%nat])
   /\ run_statement (scripted fetch_refused) 7%nat "sp_Touch" None
        (Build_World (scripted fetch_refused) 0%nat [CallCursor 1%nat])
      = (Returned tt,
         Build_World (scripted fetch_refused) 0%nat
           [CallCursor 1%nat; CallExecute 7%nat "EXEC sp_Touch" None])
   /\ cursor_description (scripted fetch_refused) 7%nat 0%nat = Returned None
   /\ do_fetchall (scripted fetch_refused) 7%nat
        (Build_World (scripted fetch_refused) 0%nat
           [CallCursor 1%nat; CallExecute 7%nat "EXEC sp_Touch" None])
      = (Raised (PyodbcError "No results.  Previous SQL was not a query."),
         Build_World (scripted fetch_refused) 0%nat
           [CallCursor 1%nat; CallExecute 7%nat "EXEC sp_Touch" None;
            CallFetchall 7%nat]))
  /\ execute_stored_procedure (scripted fetch_refused) (connected_to 1)
       "sp_Touch" None (fresh_world fetch_refused)
     = ((false, None,
         "SQL Error: No results.  Previous SQL was not a query."%string),
        Build_World (scripted fetch_refused) 0%nat
          [CallCursor 1%nat; CallExecute 7%nat "EXEC sp_Touch" None;
           CallFetchall 7%nat]).
Proof.
  split.
  - repeat split.
  - exact (no_result_set_reported_as_failure (scripted fetch_refused)
             (connected_to 1) 1%nat "sp_Touch" None
             (fresh_world fetch_refused)
             (Build_World (scripted fetch_refused) 0%nat [CallCursor 1%nat])
             (Build_World (scripted fetch_refused) 0%nat
                [CallCursor 1%nat; CallExecute 7%nat "EXEC sp_Touch" None])
             (Build_World (scripted fetch_refused) 0%nat
                [CallCursor 1%nat; CallExecute 7%nat "EXEC sp_Touch" None;
                 CallFetchall 7%nat])
             7%nat "No results.  Previous SQL was not a query."
             eq_refl eq_refl eq_refl eq_refl eq_refl eq_refl).
Defined.

(** C10: a connected execution that the driver answers with a non-empty
    description and no row returns the empty frame, whose column list is
    empty although the description named columns; the returned triple does
    not depend on the description. *)
Theorem zero_rows_lose_column_names
    {Value : Type} (D : Driver Value) (self : SQLServerConnection)
    (h : Handle) (name : string) (parameters : option Py.dict)
    (w : World D) (c : Cursor) (d : list ColumnDescription) (w' : World D) :
  is_connected self = true ->
  connection self = Some h ->
  answered D h name parameters w c (Some d) [] w' ->
  d <> [] ->
  execute_stored_procedure D self name parameters w
  = ((true,
      Some {| df_columns := []; df_rows := [] |},
      "Procedure executed successfully. No data returned."%string),
     w')
  /\ map column_0 d <> [].
Proof.
  intros Hi Hc Ha Hd. split.
  - rewrite (execute_answered D self h name parameters w c _ [] w' Hi Hc Ha).
    now destruct d.
  - destruct d; [contradiction | discriminate].
Qed.

Lemma zero_rows_lose_column_names_witness :
  (is_connected (connected_to 1) = true
   /\ connection (connected_to 1) = Some 1%nat
   /\ answered (scripted zero_rows) 1%nat "sp_GetEmployees" None
        (fresh_world zero_rows) 7%nat (Some id_name_description) []
        (Build_World (scripted zero_rows) 0%nat
           [CallCursor 1%nat; CallExecute 7%nat "EXEC sp_GetEmployees" None;
            CallFetchall 7%nat])
   /\ id_name_description <> [])
  /\ (execute_stored_procedure (scripted zero_rows) (connected_to 1)
        "sp_GetEmployees" None (fresh_world zero_rows)
      = ((true,
          Some {| df_columns := []; df_rows := [] |},
          "Procedure executed successfully. No data returned."%string),
         Build_World (scripted zero_rows) 0%nat
           [CallCursor 1%nat; CallExecute 7%nat "EXEC sp_GetEmployees" None;
            CallFetchall 7%nat])
      /\ map column_0 id_name_description <> []).
Proof.
  assert (A : answered (scripted zero_rows) 1%nat "sp_GetEmployees" None
                (fresh_world zero_rows) 7%nat (Some id_name_description) []
                (Build_World (scripted zero_rows) 0%nat
                   [CallCursor 1%nat;
                    CallExecute 7%nat "EXEC sp_GetEmployees" None;
                    CallFetchall 7%nat])).
  { unfold answered. do 2 eexists. repeat split. }
  split.
  - repeat split; try discriminate. exact A.
  - apply (zero_rows_lose_column_names (scripted zero_rows) (connected_to 1)
             1%nat "sp_GetEmployees" None (fresh_world zero_rows) 7%nat
             id_name_description);
      [reflexivity | reflexivity | exact A | discriminate].
Defined.

(** Two procedures with different columns cannot be told apart from the
    results of executions that select no row. *)
Corollary zero_rows_results_agree
    {Value : Type} (D1 D2 : Driver Value) (self : SQLServerConnection)
    (h : Handle) (name : string) (parameters : option Py.dict)
    (w1 w1' : World D1) (w2 w2' : World D2) (c1 c2 : Cursor)
    (d1 d2 : list ColumnDescription) :
  is_connected self = true ->
  connection self = Some h ->
  answered D1 h name parameters w1 c1 (Some d1) [] w1' ->
  answered D2 h name parameters w2 c2 (Some d2) [] w2' ->
  fst (execute_stored_procedure D1 self name parameters w1)
  = fst (execute_stored_procedure D2 self name parameters w2).
Proof.
  intros Hi Hc A1 A2.
  rewrite (execute_answered D1 self h name parameters w1 c1 _ [] w1' Hi Hc A1).
  rewrite (execute_answered D2 self h name parameters w2 c2 _ [] w2' Hi Hc A2).
  now destruct d1, d2.
Qed.

(** *** The statement sent to the driver *)

Lemma placeholders_are_question_marks (d : Py.dict) :
  param_placeholders d = question_marks (length d).
Proof.
  unfold param_placeholders, question_marks, Py.keys. f_equal.
  induction d as [| p d IH]; simpl; [reflexivity | now rewrite IH].
Qed.

Lemma question_marks_SS (n : nat) :
  question_marks (S (S n)) = ("?, " ++ question_marks (S n))%string.
Proof. reflexivity. Qed.

Lemma question_marks_count (n : nat) :
  occurrences "?" (question_marks n) = n.
Proof.
  destruct n as [| n]; [reflexivity |].
  induction n as [| n IH]; [reflexivity |].
  rewrite question_marks_SS. unfold occurrences in *.
  cbn [append list_ascii_of_string]. rewrite !count_occ_cons_eq by reflexivity.
  rewrite !count_occ_cons_neq by discriminate.
  now rewrite IH.
Qed.

(** What a connected execution with parameters logs once cursor() has
    returned. *)
Lemma execute_with_parameters_calls
    {Value : Type} (D : Driver Value) (h : Handle) (name : string)
    (d : Py.dict) (w w1 : World D) (c : Cursor) :
  d <> [] ->
  do_cursor D h w = (Returned c, w1) ->
  exists rest,
    (rest = [] \/ rest = [CallFetchall c])
    /\ calls (snd (execute_body D h name (Some d) w))
       = calls w
         ++ CallCursor h
         :: CallExecute c ("EXEC " ++ name ++ " " ++ param_placeholders d)
              (Some (Py.values d))
         :: rest.
Proof.
  intros Hd E1.
  pose proof (logged_calls D (CallCursor h) (connection_cursor D h) w) as L1.
  fold (do_cursor D h w) in L1. rewrite E1 in L1. simpl in L1.
  unfold execute_body, bind. rewrite E1.
  destruct d as [| p d]; [contradiction |].
  cbn [run_statement].
  set (q := ("EXEC " ++ name ++ " " ++ param_placeholders (p :: d))%string).
  set (vs := Some (Py.values (p :: d))).
  pose proof (logged_calls D (CallExecute c q vs) (cursor_execute D c q vs) w1)
    as L2.
  fold (do_execute D c q vs w1) in L2.
  destruct (do_execute D c q vs w1) as [[u | e] w2]; simpl in L2.
  - unfold read_description.
    destruct (cursor_description D c (drv w2)) as [description | e].
    + pose proof (logged_calls D (CallFetchall c) (cursor_fetchall D c) w2)
        as L3.
      fold (do_fetchall D c w2) in L3.
      destruct (do_fetchall D c w2) as [[rows | e] w3]; simpl in L3.
      * exists [CallFetchall c]. split; [now right |].
        destruct (_ && _); unfold ret, computed;
          [destruct (from_records D _ _) |]; simpl;
          rewrite L3, L2, L1, <- !app_assoc; reflexivity.
      * exists [CallFetchall c]. split; [now right |]. simpl.
        rewrite L3, L2, L1, <- !app_assoc. reflexivity.
    + exists []. split; [now left |]. simpl.
      rewrite L2, L1, <- !app_assoc. reflexivity.
  - exists []. split; [now left |]. simpl.
    rewrite L2, L1, <- !app_assoc. reflexivity.
Qed.

Lemma execute_calls_of_body
    {Value : Type} (D : Driver Value) (self : SQLServerConnection)
    (h : Handle) (name : string) (parameters : option Py.dict) (w : World D) :
  is_connected self = true ->
  connection self = Some h ->
  snd (execute_stored_procedure D self name parameters w)
  = snd (execute_body D h name parameters w).
Proof.
  intros Hi Hc. unfold execute_stored_procedure. rewrite Hi, Hc. simpl.
  now destruct (execute_body D h name parameters w) as [[r | [t | t]] w'].
Qed.

(** C6: a connected execution with a non-empty parameter mapping, once
    cursor() has returned, sends exactly one statement.  Its text is "EXEC ",
    the procedure name, a space and one question mark per parameter separated
    by ", " (so it is built from the name and the number of parameters alone,
    and holds as many question marks as there are parameters); the values are
    passed beside it, as the list of the mapping's values in the mapping's
    order. *)
Theorem statement_binds_parameter_values
    {Value : Type} (D : Driver Value) (self : SQLServerConnection)
    (h : Handle) (name : string) (d : Py.dict) (w w1 : World D) (c : Cursor) :
  is_connected self = true ->
  connection self = Some h ->
  d <> [] ->
  do_cursor D h w = (Returned c, w1) ->
  (exists rest,
     (rest = [] \/ rest = [CallFetchall c])
     /\ calls (snd (execute_stored_procedure D self name (Some d) w))
        = calls w
          ++ CallCursor h
          :: CallExecute c
               ("EXEC " ++ name ++ " " ++ question_marks (length d))
               (Some (map snd d))
          :: rest)
  /\ occurrences "?" (question_marks (length d)) = length d.
Proof.
  intros Hi Hc Hd E1. split; [| apply question_marks_count].
  rewrite (execute_calls_of_body D self h name (Some d) w Hi Hc).
  rewrite <- placeholders_are_question_marks.
  exact (execute_with_parameters_calls D h name d w w1 c Hd E1).
Qed.

Lemma statement_binds_parameter_values_witness :
  (is_connected (connected_to 1) = true
   /\ connection (connected_to 1) = Some 1%nat
   /\ [("dept", "42"); ("who", "x'; DROP TABLE t;--")]%string <> []
   /\ do_cursor (scripted two_rows) 1%nat (fresh_world two_rows)
      = (Returned 7%nat,
         Build_World (scripted two_rows) 0%nat [CallCursor 1%nat]))
  /\ ((exists rest,
         (rest = [] \/ rest = [CallFetchall 7%nat])
         /\ calls (snd (execute_stored_procedure (scripted two_rows)
                          (connected_to 1) "sp_GetEmployees"
                          (Some [("dept", "42");
                                 ("who", "x'; DROP TABLE t;--")]%string)
                          (fresh_world two_rows)))
            = calls (fresh_world two_rows)
              ++ CallCursor 1%nat
              :: CallExecute 7%nat "EXEC sp_GetEmployees ?, ?"
                   (Some ["42"; "x'; DROP TABLE t;--"]%string)
              :: rest)
      /\ occurrences "?" "?, ?" = 2%nat).
Proof.
  split.
  - repeat split. discriminate.
  - apply (statement_binds_parameter_values (scripted two_rows)
             (connected_to 1) 1%nat "sp_GetEmployees"
             [("dept", "42"); ("who", "x'; DROP TABLE t;--")]%string
             (fresh_world two_rows)
             (Build_World (scripted two_rows) 0%nat [CallCursor 1%nat])
             7%nat);
      [reflexivity | reflexivity | discriminate | reflexivity].
Defined.

(** * Properties of the procedure form *)

(** C8: when the form is shown to a connected session, the button is
    clicked, a procedure name is given and execute_stored_procedure returns
    False, the render pass stores None as the last result, whatever was there
    before, and shows the message as an error. *)
Theorem failed_execution_clears_last_result
    {Value : Type} (D : Driver Value) (form : ProcedureForm)
    (st : SessionState) (w w' : World D)
    (data : option (DataFrame Value)) (message : string) :
  is_connected (db_connection st) = true ->
  execute_clicked form = true ->
  procedure_name form <> EmptyString ->
  execute_stored_procedure D (db_connection st) (procedure_name form)
    (call_parameters form) w
  = ((false, data, message), w') ->
  render_procedure_interface D form st w
  = ({| db_connection := db_connection st;
        connection_status := connection_status st;
        last_result := None |},
     w', [Error message]).
Proof.
  intros Hi Hb Hn He. unfold render_procedure_interface.
  rewrite Hi, Hb. simpl.
  assert (T : Py.truthy_str (procedure_name form) = true).
  { unfold Py.truthy_str. apply negb_true_iff. now apply String.eqb_neq. }
  rewrite T. simpl. now rewrite He.
Qed.

Lemma failed_execution_clears_last_result_witness :
  (is_connected (db_connection session_with_result) = true
   /\ execute_clicked (form_of "sp_Missing" [] true) = true
   /\ procedure_name (form_of "sp_Missing" [] true) <> EmptyString
   /\ execute_stored_procedure (scripted statement_rejected)
        (db_connection session_with_result)
        (procedure_name (form_of "sp_Missing" [] true))
        (call_parameters (form_of "sp_Missing" [] true))
        (fresh_world statement_rejected)
      = ((false, None, "SQL Error: Could not find stored procedure."%string),
         Build_World (scripted statement_rejected) 0%nat
           [CallCursor 1%nat; CallExecute 7%nat "EXEC sp_Missing" None]))
  /\ render_procedure_interface (scripted statement_rejected)
       (form_of "sp_Missing" [] true) session_with_result
       (fresh_world statement_rejected)
     = ({| db_connection := db_connection session_with_result;
           connection_status := connection_status session_with_result;
           last_result := None |},
        Build_World (scripted statement_rejected) 0%nat
          [CallCursor 1%nat; CallExecute 7%nat "EXEC sp_Missing" None],
        [Error "SQL Error: Could not find stored procedure."]).
Proof.
  split.
  - repeat split. discriminate.
  - apply (failed_execution_clears_last_result (scripted statement_rejected)
             (form_of "sp_Missing" [] true) session_with_result
             (fresh_world statement_rejected)
             (Build_World (scripted statement_rejected) 0%nat
                [CallCursor 1%nat; CallExecute 7%nat "EXEC sp_Missing" None])
             None "SQL Error: Could not find stored procedure.");
      [reflexivity | reflexivity | discriminate | reflexivity].
Defined.

(** ** The dict of parameters *)

Lemma truthy_str_true (s : string) :
  Py.truthy_str s = true <-> s <> EmptyString.
Proof.
  unfold Py.truthy_str. rewrite negb_true_iff. apply String.eqb_neq.
Qed.

Lemma get_setitem (d : Py.dict) (k v k' : string) :
  Py.get (Py.setitem d k v) k'
  = if (k =? k')%string then Some v else Py.get d k'.
Proof.
  induction d as [| [a b] d IH]; simpl.
  - reflexivity.
  - destruct (a =? k)%string eqn:Eak; simpl.
    + apply String.eqb_eq in Eak. subst a.
      now destruct (k =? k')%string.
    + rewrite IH.
      destruct (a =? k')%string eqn:Eak'; [| reflexivity].
      apply String.eqb_eq in Eak'. subst a. now rewrite String.eqb_sym, Eak.
Qed.

Lemma keys_setitem (d : Py.dict) (k v x : string) :
  In x (Py.keys (Py.setitem d k v)) <-> x = k \/ In x (Py.keys d).
Proof.
  induction d as [| [a b] d IH]; simpl.
  - intuition.
  - destruct (a =? k)%string eqn:Eak; simpl.
    + apply String.eqb_eq in Eak. subst a. intuition.
    + unfold Py.keys in IH. rewrite IH. intuition.
Qed.

Lemma setitem_keys_unique (d : Py.dict) (k v : string) :
  NoDup (Py.keys d) -> NoDup (Py.keys (Py.setitem d k v)).
Proof.
  induction d as [| [a b] d IH]; simpl; intros N.
  - constructor; [intros [] | constructor].
  - inversion N as [| x l Hx Hl]; subst.
    destruct (a =? k)%string eqn:Eak; simpl.
    + now constructor.
    + constructor; [| now apply IH].
      intros Hin. apply keys_setitem in Hin. destruct Hin as [-> | Hin].
      * now rewrite String.eqb_refl in Eak.
      * now apply Hx.
Qed.

Lemma item_iff_get (d : Py.dict) (k v : string) :
  NoDup (Py.keys d) -> (In (k, v) d <-> Py.get d k = Some v).
Proof.
  induction d as [| [a b] d IH]; simpl; intros N.
  - split; [intros [] | discriminate].
  - inversion N as [| x l Hx Hl]; subst.
    destruct (a =? k)%string eqn:Eak.
    + apply String.eqb_eq in Eak. subst a. split.
      * intros [E | Hin]; [now inversion E |].
        exfalso. apply Hx. now apply (in_map fst) in Hin.
      * intros E. inversion E. now left.
    + rewrite <- (IH Hl). split.
      * intros [E | Hin]; [| assumption].
        inversion E; subst. now rewrite String.eqb_refl in Eak.
      * now right.
Qed.

Section Slots.

Variable form : ProcedureForm.

Lemma after_S (n : nat) :
  parameters_after form (S n)
  = collect_slot form (parameters_after form n) n.
Proof.
  unfold parameters_after. rewrite seq_S, fold_left_app. reflexivity.
Qed.

Lemma collect_parameters_after :
  collect_parameters form = parameters_after form (num_params form).
Proof.
  unfold collect_parameters, parameters_after.
  destruct (num_params form); reflexivity.
Qed.

Lemma after_keys_unique (n : nat) :
  NoDup (Py.keys (parameters_after form n)).
Proof.
  induction n as [| n IH]; [constructor |].
  rewrite after_S. unfold collect_slot.
  destruct (_ && _); [now apply setitem_keys_unique | assumption].
Qed.

Lemma after_get (n : nat) (k : string) :
  Py.get (parameters_after form n) k
  = last_entered (param_name form) (param_value form) n k.
Proof.
  induction n as [| n IH]; [reflexivity |].
  rewrite after_S. unfold collect_slot. simpl.
  destruct (Py.truthy_str (param_name form n)
            && Py.truthy_str (param_value form n)); simpl.
  - rewrite get_setitem, IH. reflexivity.
  - exact IH.
Qed.

Lemma slot_counts_iff (n : nat) (k : string) :
  Py.truthy_str (param_name form n) && Py.truthy_str (param_value form n)
  && (param_name form n =? k)%string
  = true
  <-> param_name form n <> EmptyString
      /\ param_value form n <> EmptyString
      /\ param_name form n = k.
Proof.
  rewrite !andb_true_iff, !truthy_str_true, String.eqb_eq. tauto.
Qed.

(** [last_entered] finds the last slot with that name and both fields
    filled in. *)
Lemma last_entered_some (n : nat) (k v : string) :
  last_entered (param_name form) (param_value form) n k = Some v <->
  exists j,
    j < n /\ param_name form j = k /\ param_value form j = v
    /\ param_name form j <> EmptyString /\ param_value form j <> EmptyString
    /\ forall j', j < j' < n ->
         param_name form j' = k -> param_value form j' = EmptyString.
Proof.
  induction n as [| n IH]; simpl.
  - split; [discriminate | intros (j & Hj & _); lia].
  - destruct (Py.truthy_str (param_name form n)
              && Py.truthy_str (param_value form n)
              && (param_name form n =? k)%string) eqn:Q.
    + apply slot_counts_iff in Q. destruct Q as (Qn & Qv & Qk). split.
      * intros E. inversion E. exists n.
        repeat split; auto; intros; lia.
      * intros (j & Hj & Hk & Hv & _ & _ & Hlast).
        destruct (Nat.eq_dec j n) as [-> | Hne]; [now rewrite Hv |].
        exfalso. apply Qv. apply Hlast; [lia | assumption].
    + assert (Q' : ~ (param_name form n <> EmptyString
                      /\ param_value form n <> EmptyString
                      /\ param_name form n = k)).
      { intros H. apply slot_counts_iff in H. congruence. }
      rewrite IH. split; intros (j & Hj & Hk & Hv & Hn & Hw & Hlast);
        exists j.
      * repeat split; auto. intros j' Hj' Hk'.
        destruct (Nat.eq_dec j' n) as [-> | Hne].
        -- destruct (string_dec (param_value form n) EmptyString) as [E | E];
             [exact E |].
           exfalso. apply Q'. repeat split; congruence.
        -- apply Hlast; [lia | assumption].
      * assert (j <> n) by (intros ->; apply Q'; auto).
        repeat split; auto; [lia |].
        intros j' Hj' Hk'. apply Hlast; [lia | assumption].
Qed.

End Slots.

Lemma included_as_get (form : ProcedureForm) (i : nat) :
  slot_included form i <->
  Py.get (collect_parameters form) (param_name form i)
  = Some (param_value form i).
Proof.
  unfold slot_included, call_parameters.
  rewrite <- (item_iff_get (collect_parameters form));
    [| rewrite collect_parameters_after; apply after_keys_unique].
  destruct (collect_parameters form); simpl; tauto.
Qed.

(** C9 as stated fails: two slots with the same name and different values,
    all non-empty.  The mapping passed holds the second value only, so the
    first slot is not included although its name and value are non-empty. *)
Lemma repeated_name_first_slot_excluded :
  0 < num_params repeated_name
  /\ call_parameters repeated_name = Some [("a", "2")]%string
  /\ ~ (slot_included repeated_name 0 <->
        param_name repeated_name 0 <> EmptyString
        /\ param_value repeated_name 0 <> EmptyString).
Proof.
  split; [cbv; lia |]. split; [reflexivity |].
  intros [_ H].
  assert (I : slot_included repeated_name 0) by (apply H; split; discriminate).
  unfold slot_included in I. simpl in I.
  destruct I as [E | []]. discriminate.
Qed.

(** The same form seen from the driver: one value is bound. *)
Example repeated_name_on_the_wire :
  render_procedure_interface (scripted two_rows) repeated_name
    session_with_result (fresh_world two_rows)
  = ({| db_connection := db_connection session_with_result;
        connection_status := connection_status session_with_result;
        last_result :=
          Some {| df_columns := ["id"; "name"]%string;
                  df_rows := [[CInt 1; CStr "a"]; [CInt 2; CStr "b"]] |} |},
     Build_World (scripted two_rows) 0%nat
       [CallCursor 1%nat;
        CallExecute 7%nat "EXEC sp_Find ?" (Some ["2"%string]);
        CallFetchall 7%nat],
     [Success "Procedure executed successfully. 2 rows returned."]).
Proof. reflexivity. Qed.

(** C9, amended: a slot is included in the call exactly when its name and
    its value are both non-empty and the last slot carrying that name with a
    non-empty value, which is this slot or a later one, holds the same value
    (the parameters are keyed by name: a later filled-in slot of the same name
    replaces the value).  A slot with an empty name or an empty value is never
    included, and nothing is raised. *)
Theorem slot_included_iff (form : ProcedureForm) (i : nat) :
  i < num_params form ->
  (slot_included form i <->
   param_name form i <> EmptyString
   /\ param_value form i <> EmptyString
   /\ exists j,
        i <= j < num_params form
        /\ param_name form j = param_name form i
        /\ param_value form j = param_value form i
        /\ forall k, j < k < num_params form ->
             param_name form k = param_name form i ->
             param_value form k = EmptyString).
Proof.
  intros Hi.
  rewrite included_as_get, collect_parameters_after, after_get,
    last_entered_some.
  split.
  - intros (j & Hj & Hk & Hv & Hn & Hw & Hlast).
    assert (Hin : param_name form i <> EmptyString) by congruence.
    assert (Hiv : param_value form i <> EmptyString) by congruence.
    repeat split; auto.
    exists j. repeat split; auto.
    destruct (le_lt_dec i j) as [L | L]; [exact L |].
    exfalso. apply Hiv. apply Hlast; [lia | reflexivity].
  - intros (Hin & Hiv & j & Hj & Hk & Hv & Hlast).
    exists j. repeat split; auto; try lia; congruence.
Qed.

Lemma slot_included_iff_witness :
  2 < num_params three_slots
  /\ (slot_included three_slots 2 <->
      param_name three_slots 2 <> EmptyString
      /\ param_value three_slots 2 <> EmptyString
      /\ exists j,
           2 <= j < num_params three_slots
           /\ param_name three_slots j = param_name three_slots 2
           /\ param_value three_slots j = param_value three_slots 2
           /\ forall k, j < k < num_params three_slots ->
                param_name three_slots k = param_name three_slots 2 ->
                param_value three_slots k = EmptyString).
Proof.
  split.
  - cbv. lia.
  - apply (slot_included_iff three_slots 2). cbv. lia.
Defined.

(** On that form the third slot is included, the first (same name, replaced)
    and the second (no value) are not. *)
Example three_slots_included :
  call_parameters three_slots = Some [("a", "2")]%string
  /\ slot_included three_slots 2
  /\ ~ slot_included three_slots 0
  /\ ~ slot_included three_slots 1.
Proof.
  split; [reflexivity |]. unfold slot_included. simpl.
  split; [now left |].
  split; intros [E | []]; discriminate.
Qed.

(** When no other slot repeats its name, a slot is included exactly when its
    name and its value are both non-empty. *)
Corollary unique_name_included_iff (form : ProcedureForm) (i : nat) :
  i < num_params form ->
  (forall j, j < num_params form -> j <> i ->
     param_name form j <> param_name form i) ->
  (slot_included form i <->
   param_name form i <> EmptyString /\ param_value form i <> EmptyString).
Proof.
  intros Hi Hu.
  rewrite (included_as_get form i), collect_parameters_after, after_get,
    last_entered_some.
  split.
  - intros (j & Hj & Hk & Hv & Hn & Hw & Hlast). split; congruence.
  - intros (Hn & Hv). exists i. repeat split; auto.
    intros k Hk E. exfalso. apply (Hu k); [lia | lia | exact E].
Qed.

(** Slots with an empty name or an empty value leave the dict as it is, so
    the loop raises nothing and an incomplete slot adds no parameter. *)
Lemma incomplete_slot_skipped (form : ProcedureForm) (d : Py.dict) (i : nat) :
  param_name form i = EmptyString \/ param_value form i = EmptyString ->
  collect_slot form d i = d.
Proof.
  intros [E | E]; unfold collect_slot; rewrite E; simpl;
    [reflexivity | now rewrite andb_false_r].
Qed.

(** * Further properties of the connection manager *)

(** X1: whatever the outcome, connect makes exactly one call to the driver,
    pyodbc.connect with the connection string and a timeout of 10; it does not
    retry and does not close a handle the object already held. *)
Theorem connect_calls_driver_once
    {Value : Type} (D : Driver Value) (self : SQLServerConnection)
    (server database auth_type : string) (username password : option string)
    (w : World D) :
  calls (snd (connect D self server database auth_type username password w))
  = calls w ++
    [CallConnect
       (connection_string server database auth_type username password) 10].
Proof.
  unfold connect, do_connect.
  pose proof (logged_calls D
                (CallConnect
                   (connection_string server database auth_type
                      username password) 10)
                (pyodbc_connect D
                   (connection_string server database auth_type
                      username password) 10) w) as L.
  destruct (logged D _ _ w) as [[h | [t | t]] w']; exact L.
Qed.

(** X3: with Windows authentication the string given to the driver names
    the server and the database and asks for a trusted connection; the
    username and password arguments take no part in it, and connect does the
    same whatever they are. *)
Theorem windows_connect_ignores_credentials
    {Value : Type} (D : Driver Value) (self : SQLServerConnection)
    (server database : string) (username password : option string)
    (w : World D) :
  connection_string server database "Windows" username password
  = ("DRIVER={ODBC Driver 17 for SQL Server};SERVER=" ++ server
     ++ ";DATABASE=" ++ database ++ ";Trusted_Connection=yes;")%string
  /\ connect D self server database "Windows" username password w
     = connect D self server database "Windows" None None w.
Proof.
  split; reflexivity.
Qed.

Lemma connect_success_witness :
  pyodbc_connect (scripted two_rows)
    (connection_string "localhost" "Sales" "Windows" None None) 10
    (drv (fresh_world two_rows))
  = (Returned 1%nat, 0%nat)
  /\ connect (scripted two_rows) init "localhost" "Sales" "Windows" None None
       (fresh_world two_rows)
     = ((true, "Connected successfully!"%string), connected_to 1,
        after_connect).
Proof.
  split.
  - reflexivity.
  - exact (connect_success (scripted two_rows) init "localhost" "Sales"
             "Windows" None None (fresh_world two_rows) 1%nat 0%nat eq_refl).
Defined.

Lemma disconnect_success_witness :
  (connection (connected_to 1) = Some 1%nat
   /\ connection_close (scripted two_rows) 1%nat (drv after_connect)
      = (Returned tt, 1%nat))
  /\ disconnect (scripted two_rows) (connected_to 1) after_connect
     = ((true, "Disconnected successfully"%string),
        {| connection := Some 1%nat; is_connected := false |},
        after_disconnect).
Proof.
  split.
  - split; reflexivity.
  - exact (disconnect_success (scripted two_rows) (connected_to 1) 1%nat
             after_connect 1%nat eq_refl eq_refl).
Defined.

Lemma disconnect_without_handle_witness :
  connection init = None
  /\ disconnect (scripted two_rows) init (fresh_world two_rows)
     = ((true, "No active connection"%string), init, fresh_world two_rows).
Proof.
  split.
  - reflexivity.
  - exact (disconnect_without_handle (scripted two_rows) init
             (fresh_world two_rows) eq_refl).
Defined.

(** X6: the flag and the handle stay consistent: if the object holds a
    handle whenever it is marked connected, the same is true after connect and
    after disconnect, whatever the driver answers; a new object is so. *)
Theorem flag_needs_handle_kept
    {Value : Type} (D : Driver Value) (self : SQLServerConnection)
    (server database auth_type : string) (username password : option string)
    (w : World D) :
  flag_needs_handle self ->
  flag_needs_handle init
  /\ flag_needs_handle
       (snd (fst (connect D self server database auth_type
                    username password w)))
  /\ flag_needs_handle (snd (fst (disconnect D self w))).
Proof.
  intros I. unfold flag_needs_handle in *. repeat split.
  - discriminate.
  - unfold connect.
    destruct (do_connect D _ 10 w) as [[h | [t | t]] w']; simpl;
      discriminate.
  - unfold disconnect. destruct (connection self) as [h |] eqn:E.
    + destruct (do_close D h w) as [[u | e] w']; simpl;
        [discriminate | now rewrite E].
    + simpl. intros F N. now apply (I F).
Qed.

Lemma flag_needs_handle_kept_witness :
  flag_needs_handle (connected_to 1)
  /\ (flag_needs_handle init
      /\ flag_needs_handle
           (snd (fst (connect (scripted login_refused) (connected_to 1)
                        "localhost" "Sales" "SQL Server" (Some "sa")
                        (Some "pw") (fresh_world login_refused))))
      /\ flag_needs_handle
           (snd (fst (disconnect (scripted login_refused) (connected_to 1)
                        (fresh_world login_refused))))).
Proof.
  assert (I : flag_needs_handle (connected_to 1)).
  { unfold flag_needs_handle. simpl. discriminate. }
  split.
  - exact I.
  - exact (flag_needs_handle_kept (scripted login_refused) (connected_to 1)
             "localhost" "Sales" "SQL Server" (Some "sa") (Some "pw")
             (fresh_world login_refused) I).
Defined.

(** X7: once a connect and a disconnect have both reported success,
    execute_stored_procedure is refused with "No active database connection"
    and makes no call, although the object still holds the handle. *)
Theorem execute_refused_after_disconnect
    {Value : Type} (D : Driver Value) (self : SQLServerConnection)
    (server database auth_type : string) (username password : option string)
    (w w1 w2 : World D) (message1 message2 : string)
    (m1 m2 : SQLServerConnection)
    (name : string) (parameters : option Py.dict) :
  connect D self server database auth_type username password w
  = ((true, message1), m1, w1) ->
  disconnect D m1 w1 = ((true, message2), m2, w2) ->
  execute_stored_procedure D m2 name parameters w2
  = ((false, None, "No active database connection"%string), w2)
  /\ connection m2 <> None.
Proof.
  intros Hc Hd.
  destruct (connect_true_inv D _ _ _ _ _ _ _ _ _ _ Hc) as [h ->].
  apply disconnect_true_inv in Hd. subst m2.
  split; [reflexivity | discriminate].
Qed.

Lemma execute_refused_after_disconnect_witness :
  (connect (scripted two_rows) init "localhost" "Sales" "Windows" None None
     (fresh_world two_rows)
   = ((true, "Connected successfully!"%string), connected_to 1, after_connect)
   /\ disconnect (scripted two_rows) (connected_to 1) after_connect
      = ((true, "Disconnected successfully"%string),
         {| connection := Some 1%nat; is_connected := false |},
         after_disconnect))
  /\ (execute_stored_procedure (scripted two_rows)
        {| connection := Some 1%nat; is_connected := false |}
        "sp_GetEmployees" None after_disconnect
      = ((false, None, "No active database connection"%string),
         after_disconnect)
      /\ connection {| connection := Some 1%nat; is_connected := false |}
         <> None).
Proof.
  split.
  - split; reflexivity.
  - exact (execute_refused_after_disconnect (scripted two_rows) init
             "localhost" "Sales" "Windows" None None
             (fresh_world two_rows) after_connect after_disconnect
             "Connected successfully!" "Disconnected successfully"
             (connected_to 1)
             {| connection := Some 1%nat; is_connected := false |}
             "sp_GetEmployees" None eq_refl eq_refl).
Defined.

(** *** The calls of one execution *)

(** The one statement an execution sends. *)
Lemma run_statement_is_execute
    {Value : Type} (D : Driver Value) (c : Cursor) (name : string)
    (parameters : option Py.dict) :
  exists query values,
    run_statement D c name parameters = do_execute D c query values
    /\ (forall d, parameters = Some d -> d <> [] ->
          query = ("EXEC " ++ name ++ " " ++ question_marks (length d))%string
          /\ values = Some (map snd d))
    /\ (parameters = None \/ parameters = Some [] ->
          query = ("EXEC " ++ name)%string /\ values = None).
Proof.
  destruct parameters as [[| p d] |].
  - exists ("EXEC " ++ name)%string, None.
    split; [reflexivity |]. split; [| auto].
    intros d E N. inversion E; subst. contradiction.
  - exists ("EXEC " ++ name ++ " " ++ question_marks (length (p :: d)))%string,
           (Some (map snd (p :: d))).
    split; [| split].
    + cbn [run_statement]. now rewrite placeholders_are_question_marks.
    + intros d0 E _. inversion E; subst. auto.
    + intros [E | E]; discriminate.
  - exists ("EXEC " ++ name)%string, None.
    split; [reflexivity |]. split; [| auto].
    intros d E. discriminate.
Qed.

Lemma execute_body_log
    {Value : Type} (D : Driver Value) (h : Handle) (name : string)
    (parameters : option Py.dict) (w : World D) :
  (forall e w1,
     do_cursor D h w = (Raised e, w1) ->
     calls (snd (execute_body D h name parameters w))
     = calls w ++ [CallCursor h])
  /\ (forall c w1 query values,
        do_cursor D h w = (Returned c, w1) ->
        run_statement D c name parameters = do_execute D c query values ->
        calls (snd (execute_body D h name parameters w))
        = calls w ++ [CallCursor h; CallExecute c query values]
        \/ calls (snd (execute_body D h name parameters w))
           = calls w ++ [CallCursor h; CallExecute c query values;
                         CallFetchall c]).
Proof.
  pose proof (logged_calls D (CallCursor h) (connection_cursor D h) w) as L1.
  fold (do_cursor D h w) in L1.
  split.
  - intros e w1 E1. rewrite E1 in L1. simpl in L1.
    unfold execute_body, bind. rewrite E1. exact L1.
  - intros c w1 q v E1 R. rewrite E1 in L1. simpl in L1.
    unfold execute_body, bind. rewrite E1, R.
    pose proof (logged_calls D (CallExecute c q v) (cursor_execute D c q v) w1)
      as L2.
    fold (do_execute D c q v w1) in L2.
    destruct (do_execute D c q v w1) as [[u | e] w2]; simpl in L2.
    2: { left. simpl. rewrite L2, L1, <- app_assoc. reflexivity. }
    unfold read_description.
    destruct (cursor_description D c (drv w2)) as [description | e].
    2: { left. simpl. rewrite L2, L1, <- app_assoc. reflexivity. }
    pose proof (logged_calls D (CallFetchall c) (cursor_fetchall D c) w2)
      as L3.
    fold (do_fetchall D c w2) in L3.
    right.
    destruct (do_fetchall D c w2) as [[rows | e] w3]; simpl in L3;
      [destruct (_ && _); [unfold computed; destruct (from_records D _ _) |]
      |]; unfold ret; simpl;
      rewrite L3, L2, L1, <- !app_assoc; reflexivity.
Qed.

(** X8: a connected execution first asks the handle for a cursor.  If that
    raises, nothing more is called.  Otherwise it executes exactly one
    statement on the cursor that cursor() returned (the EXEC text with one
    question mark per parameter and the values beside it when parameters are
    given, the bare EXEC text and no values otherwise) and then calls
    fetchall() at most once, on that same cursor.  It never opens or closes a
    connection and it does not close the cursor. *)
Theorem execute_call_sequence
    {Value : Type} (D : Driver Value) (self : SQLServerConnection)
    (h : Handle) (name : string) (parameters : option Py.dict) (w : World D) :
  is_connected self = true ->
  connection self = Some h ->
  (forall e w1,
     do_cursor D h w = (Raised e, w1) ->
     calls (snd (execute_stored_procedure D self name parameters w))
     = calls w ++ [CallCursor h])
  /\ (forall c w1,
        do_cursor D h w = (Returned c, w1) ->
        exists query values,
          (forall d, parameters = Some d -> d <> [] ->
             query
             = ("EXEC " ++ name ++ " " ++ question_marks (length d))%string
             /\ values = Some (map snd d))
          /\ (parameters = None \/ parameters = Some [] ->
                query = ("EXEC " ++ name)%string /\ values = None)
          /\ (calls (snd (execute_stored_procedure D self name parameters w))
              = calls w ++ [CallCursor h; CallExecute c query values]
              \/ calls (snd (execute_stored_procedure D self name
                               parameters w))
                 = calls w ++ [CallCursor h; CallExecute c query values;
                               CallFetchall c])).
Proof.
  intros Hi Hc.
  rewrite (execute_calls_of_body D self h name parameters w Hi Hc).
  destruct (execute_body_log D h name parameters w) as [L1 L2].
  split; [exact L1 |].
  intros c w1 E1.
  destruct (run_statement_is_execute D c name parameters)
    as (q & v & R & S1 & S2).
  exists q, v. split; [exact S1 |]. split; [exact S2 |].
  exact (L2 c w1 q v E1 R).
Qed.

Lemma execute_call_sequence_witness :
  (is_connected (connected_to 1) = true
   /\ connection (connected_to 1) = Some 1%nat)
  /\ ((forall e w1,
         do_cursor (scripted two_rows) 1%nat (fresh_world two_rows)
         = (Raised e, w1) ->
         calls (snd (execute_stored_procedure (scripted two_rows)
                       (connected_to 1) "sp_GetEmployees"
                       (Some [("dept", "42")]%string) (fresh_world two_rows)))
         = calls (fresh_world two_rows) ++ [CallCursor 1%nat])
      /\ (forall c w1,
            do_cursor (scripted two_rows) 1%nat (fresh_world two_rows)
            = (Returned c, w1) ->
            exists query values,
              (forall d, Some [("dept", "42")]%string = Some d -> d <> [] ->
                 query
                 = ("EXEC " ++ "sp_GetEmployees" ++ " "
                    ++ question_marks (length d))%string
                 /\ values = Some (map snd d))
              /\ (Some [("dept", "42")]%string = None
                  \/ Some [("dept", "42")]%string = Some [] ->
                    query = ("EXEC " ++ "sp_GetEmployees")%string
                    /\ values = None)
              /\ (calls (snd (execute_stored_procedure (scripted two_rows)
                                (connected_to 1) "sp_GetEmployees"
                                (Some [("dept", "42")]%string)
                                (fresh_world two_rows)))
                  = calls (fresh_world two_rows)
                    ++ [CallCursor 1%nat; CallExecute c query values]
                  \/ calls (snd (execute_stored_procedure (scripted two_rows)
                                   (connected_to 1) "sp_GetEmployees"
                                   (Some [("dept", "42")]%string)
                                   (fresh_world two_rows)))
                     = calls (fresh_world two_rows)
                       ++ [CallCursor 1%nat; CallExecute c query values;
                           CallFetchall c]))).
Proof.
  split.
  - split; reflexivity.
  - exact (execute_call_sequence (scripted two_rows) (connected_to 1) 1%nat
             "sp_GetEmployees" (Some [("dept", "42")]%string)
             (fresh_world two_rows) eq_refl eq_refl).
Defined.

(** The calls of that execution, read off. *)
Example employees_call_sequence :
  calls (snd (execute_stored_procedure (scripted two_rows) (connected_to 1)
                "sp_GetEmployees" (Some [("dept", "42")]%string)
                (fresh_world two_rows)))
  = [CallCursor 1%nat;
     CallExecute 7%nat "EXEC sp_GetEmployees ?" (Some ["42"%string]);
     CallFetchall 7%nat].
Proof. reflexivity. Qed.

(** What a disconnect that reports failure leaves behind. *)
Lemma disconnect_false_inv
    {Value : Type} (D : Driver Value) (self : SQLServerConnection)
    (w : World D) (message : string) (m : SQLServerConnection) (w' : World D) :
  disconnect D self w = ((false, message), m, w') ->
  m = self /\ exists h, connection self = Some h.
Proof.
  unfold disconnect. destruct (connection self) as [h |] eqn:E.
  - destruct (do_close D h w) as [[u | e] w1]; intros Q; inversion Q; subst.
    split; [reflexivity | now exists h].
  - intros Q. inversion Q.
Qed.

(** X9: a disconnect that reports failure leaves the object as it was; if
    it was connected on handle [h] it still is, and the next
    execute_stored_procedure is not refused: its first call asks that same
    handle for a cursor. *)
Theorem execute_runs_after_failed_disconnect
    {Value : Type} (D : Driver Value) (self : SQLServerConnection)
    (h : Handle) (w w' : World D) (message : string)
    (m : SQLServerConnection) (name : string) (parameters : option Py.dict) :
  is_connected self = true ->
  connection self = Some h ->
  disconnect D self w = ((false, message), m, w') ->
  m = self
  /\ exists rest,
       calls (snd (execute_stored_procedure D m name parameters w'))
       = calls w' ++ CallCursor h :: rest.
Proof.
  intros Hi Hc Hd.
  destruct (disconnect_false_inv D self w message m w' Hd) as (-> & _).
  split; [reflexivity |].
  rewrite (execute_calls_of_body D self h name parameters w' Hi Hc).
  destruct (execute_body_log D h name parameters w') as [L1 L2].
  destruct (do_cursor D h w') as [[c | e] w1] eqn:E1.
  - destruct (run_statement_is_execute D c name parameters)
      as (q & v & R & _).
    destruct (L2 c w1 q v eq_refl R) as [L | L]; rewrite L; eauto.
  - rewrite (L1 e w1 eq_refl). eauto.
Qed.

Lemma execute_runs_after_failed_disconnect_witness :
  (is_connected (connected_to 1) = true
   /\ connection (connected_to 1) = Some 1%nat
   /\ disconnect (scripted close_fails) (connected_to 1)
        (fresh_world close_fails)
      = ((false, "Error disconnecting: Communication link failure"%string),
         connected_to 1,
         Build_World (scripted close_fails) 1%nat [CallClose 1%nat]))
  /\ (connected_to 1 = connected_to 1
      /\ exists rest,
           calls (snd (execute_stored_procedure (scripted close_fails)
                         (connected_to 1) "sp_GetEmployees" None
                         (Build_World (scripted close_fails) 1%nat
                            [CallClose 1%nat])))
           = calls (Build_World (scripted close_fails) 1%nat
                      [CallClose 1%nat])
             ++ CallCursor 1%nat :: rest).
Proof.
  split.
  - repeat split.
  - exact (execute_runs_after_failed_disconnect (scripted close_fails)
             (connected_to 1) 1%nat (fresh_world close_fails)
             (Build_World (scripted close_fails) 1%nat [CallClose 1%nat])
             "Error disconnecting: Communication link failure"
             (connected_to 1) "sp_GetEmployees" None
             eq_refl eq_refl eq_refl).
Defined.

(** *** Failures of an execution *)

Lemma execute_body_raised
    {Value : Type} (D : Driver Value) (h : Handle) (name : string)
    (parameters : option Py.dict) (w : World D) (e : exn) (w' : World D) :
  raised_at D h name parameters w e w' ->
  execute_body D h name parameters w = (Raised e, w').
Proof.
  unfold execute_body, bind, read_description.
  intros [E1 | c w1 E1 E2 | c w1 u E1 E2 E3 | c w1 w2 u description E1 E2 E3 E4].
  - now rewrite E1.
  - now rewrite E1, E2.
  - now rewrite E1, E2, E3.
  - now rewrite E1, E2, E3, E4.
Qed.

(** Every execution on a handle is either answered to the end or stopped
    by an exception. *)
Lemma execute_body_cases
    {Value : Type} (D : Driver Value) (h : Handle) (name : string)
    (parameters : option Py.dict) (w : World D) :
  (exists c description rows w',
     answered D h name parameters w c description rows w')
  \/ (exists e w', raised_at D h name parameters w e w').
Proof.
  destruct (do_cursor D h w) as [[c | e] w1] eqn:E1.
  2: { right. exists e, w1. now apply RaisedByCursor. }
  destruct (run_statement D c name parameters w1) as [[u | e] w2] eqn:E2.
  2: { right. exists e, w2. now apply (RaisedByStatement D h _ _ w e w2 c w1). }
  destruct (cursor_description D c (drv w2)) as [description | e] eqn:E3.
  2: { right. exists e, w2.
       now apply (RaisedByDescription D h _ _ w e w2 c w1 u). }
  destruct (do_fetchall D c w2) as [[rows | e] w3] eqn:E4.
  2: { right. exists e, w3.
       now apply (RaisedByFetchall D h _ _ w e w3 c w1 w2 u description). }
  left. exists c, description, rows, w3. exists w1, w2.
  destruct u. auto.
Qed.

Lemma execute_raised
    {Value : Type} (D : Driver Value) (self : SQLServerConnection)
    (h : Handle) (name : string) (parameters : option Py.dict)
    (w : World D) (e : exn) (w' : World D) :
  is_connected self = true ->
  connection self = Some h ->
  raised_at D h name parameters w e w' ->
  execute_stored_procedure D self name parameters w
  = ((false, None, execution_error e), w').
Proof.
  intros Hi Hc R. unfold execute_stored_procedure. rewrite Hi, Hc. simpl.
  rewrite (execute_body_raised D h name parameters w e w' R).
  now destruct e.
Qed.

(** X10: when any of the driver's answers during a connected execution is
    an exception (from cursor(), from the statement, from reading the
    description or from fetchall()), execute_stored_procedure stops there and
    returns False, no frame, and "SQL Error: " followed by the text for a
    pyodbc error or "Unexpected error: " followed by the text otherwise. *)
Theorem execute_reports_driver_exception
    {Value : Type} (D : Driver Value) (self : SQLServerConnection)
    (h : Handle) (name : string) (parameters : option Py.dict)
    (w : World D) (e : exn) (w' : World D) :
  is_connected self = true ->
  connection self = Some h ->
  raised_at D h name parameters w e w' ->
  execute_stored_procedure D self name parameters w
  = ((false, None,
      match e with
      | PyodbcError text => ("SQL Error: " ++ text)%string
      | OtherException text => ("Unexpected error: " ++ text)%string
      end),
     w').
Proof.
  intros Hi Hc R.
  exact (execute_raised D self h name parameters w e w' Hi Hc R).
Qed.

Lemma execute_reports_driver_exception_witness :
  (is_connected (connected_to 1) = true
   /\ connection (connected_to 1) = Some 1%nat
   /\ raised_at (scripted fetch_refused) 1%nat "sp_Touch" None
        (fresh_world fetch_refused)
        (PyodbcError "No results.  Previous SQL was not a query.")
        (Build_World (scripted fetch_refused) 0%nat
           [CallCursor 1%nat; CallExecute 7%nat "EXEC sp_Touch" None;
            CallFetchall 7%nat]))
  /\ execute_stored_procedure (scripted fetch_refused) (connected_to 1)
       "sp_Touch" None (fresh_world fetch_refused)
     = ((false, None,
         "SQL Error: No results.  Previous SQL was not a query."%string),
        Build_World (scripted fetch_refused) 0%nat
          [CallCursor 1%nat; CallExecute 7%nat "EXEC sp_Touch" None;
           CallFetchall 7%nat]).
Proof.
  assert (R : raised_at (scripted fetch_refused) 1%nat "sp_Touch" None
                (fresh_world fetch_refused)
                (PyodbcError "No results.  Previous SQL was not a query.")
                (Build_World (scripted fetch_refused) 0%nat
                   [CallCursor 1%nat; CallExecute 7%nat "EXEC sp_Touch" None;
                    CallFetchall 7%nat])).
  { eapply RaisedByFetchall; reflexivity. }
  split.
  - repeat split. exact R.
  - exact (execute_reports_driver_exception (scripted fetch_refused)
             (connected_to 1) 1%nat "sp_Touch" None
             (fresh_world fetch_refused)
             (PyodbcError "No results.  Previous SQL was not a query.")
             _ eq_refl eq_refl R).
Defined.

(** X11: a connected execute_stored_procedure returns False only when an
    exception was raised: by one of the driver's answers or, after the driver
    answered with columns and rows, by from_records.  The message is then
    built from that exception and no frame is returned. *)
Theorem execute_fails_only_on_exception
    {Value : Type} (D : Driver Value) (self : SQLServerConnection)
    (h : Handle) (name : string) (parameters : option Py.dict)
    (w w' : World D) (data : option (DataFrame Value)) (message : string) :
  is_connected self = true ->
  connection self = Some h ->
  execute_stored_procedure D self name parameters w
  = ((false, data, message), w') ->
  data = None
  /\ exists e,
       message = execution_error e
       /\ (raised_at D h name parameters w e w'
           \/ exists c d rows,
                answered D h name parameters w c (Some d) rows w'
                /\ d <> [] /\ rows <> []
                /\ from_records D rows (map column_0 d) = Raised e).
Proof.
  intros Hi Hc E.
  destruct (execute_body_cases D h name parameters w)
    as [(c & description & rows & w1 & A) | (e & w1 & R)].
  - rewrite (execute_answered D self h name parameters w c description rows w1
               Hi Hc A) in E.
    destruct description as [[| col d] |]; destruct rows as [| r rows];
      try (inversion E; fail).
    destruct (from_records D (r :: rows) (map column_0 (col :: d)))
      as [df | e] eqn:F; inversion E; subst.
    split; [reflexivity |]. exists e. split; [reflexivity |].
    right. exists c, (col :: d), (r :: rows).
    repeat split; try discriminate; assumption.
  - rewrite (execute_raised D self h name parameters w e w1 Hi Hc R) in E.
    inversion E; subst. split; [reflexivity |]. exists e. auto.
Qed.

Lemma execute_fails_only_on_exception_witness :
  (is_connected (connected_to 1) = true
   /\ connection (connected_to 1) = Some 1%nat
   /\ execute_stored_procedure (scripted cursor_fails) (connected_to 1)
        "sp_GetEmployees" None (fresh_world cursor_fails)
      = ((false, None, "Unexpected error: out of memory"%string),
         Build_World (scripted cursor_fails) 0%nat [CallCursor 1%nat]))
  /\ (@None (DataFrame Cell) = None
      /\ exists e,
           "Unexpected error: out of memory"%string = execution_error e
           /\ (raised_at (scripted cursor_fails) 1%nat "sp_GetEmployees" None
                 (fresh_world cursor_fails) e
                 (Build_World (scripted cursor_fails) 0%nat [CallCursor 1%nat])
               \/ exists c d rows,
                    answered (scripted cursor_fails) 1%nat "sp_GetEmployees"
                      None (fresh_world cursor_fails) c (Some d) rows
                      (Build_World (scripted cursor_fails) 0%nat
                         [CallCursor 1%nat])
                    /\ d <> [] /\ rows <> []
                    /\ from_records (scripted cursor_fails) rows
                         (map column_0 d)
                       = Raised e)).
Proof.
  split.
  - repeat split.
  - exact (execute_fails_only_on_exception (scripted cursor_fails)
             (connected_to 1) 1%nat "sp_GetEmployees" None
             (fresh_world cursor_fails)
             (Build_World (scripted cursor_fails) 0%nat [CallCursor 1%nat])
             None "Unexpected error: out of memory"
             eq_refl eq_refl eq_refl).
Defined.

(** X12: whatever the object, the inputs and the driver,
    execute_stored_procedure returns either False with no frame, or True with
    a frame; that frame is the empty frame together with the "No data
    returned." message, or a frame with at least one column and one row
    together with the message that counts its rows. *)
Theorem execute_result_shape
    {Value : Type} (D : Driver Value) (self : SQLServerConnection)
    (name : string) (parameters : option Py.dict) (w : World D) :
  exists (message : string),
    fst (execute_stored_procedure D self name parameters w)
    = (false, None, message)
    \/ fst (execute_stored_procedure D self name parameters w)
       = (true, Some DataFrame_empty,
          "Procedure executed successfully. No data returned."%string)
    \/ exists df,
         fst (execute_stored_procedure D self name parameters w)
         = (true, Some df,
            ("Procedure executed successfully. "
             ++ Py.str_of_nat (length (df_rows df))
             ++ " rows returned.")%string)
         /\ df_is_empty df = false.
Proof.
  destruct (is_connected self) eqn:Hi.
  2: { exists "No active database connection"%string. left.
       unfold execute_stored_procedure. now rewrite Hi. }
  destruct (connection self) as [h |] eqn:Hc.
  2: { exists "No active database connection"%string. left.
       unfold execute_stored_procedure. now rewrite Hi, Hc. }
  destruct (execute_body_cases D h name parameters w)
    as [(c & description & rows & w1 & A) | (e & w1 & R)].
  - rewrite (execute_answered D self h name parameters w c description rows w1
               Hi Hc A).
    destruct description as [[| col d] |]; destruct rows as [| r rows];
      try (exists EmptyString; right; left; reflexivity).
    destruct (from_records D (r :: rows) (map column_0 (col :: d)))
      as [df | e] eqn:F.
    + exists EmptyString. right. right. exists df.
      destruct (from_records_shape D _ _ df F) as [Fc Fr].
      split.
      * simpl fst. now rewrite Fr.
      * unfold df_is_empty. rewrite Fc.
        destruct (df_rows df); [discriminate Fr | reflexivity].
    + exists (execution_error e). now left.
  - rewrite (execute_raised D self h name parameters w e w1 Hi Hc R).
    exists (execution_error e). now left.
Qed.

(** X13: without parameters (None, or an empty mapping) a connected
    execution sends the text "EXEC " followed by the procedure name and binds
    no value list. *)
Theorem statement_without_parameters
    {Value : Type} (D : Driver Value) (self : SQLServerConnection)
    (h : Handle) (name : string) (parameters : option Py.dict)
    (w w1 : World D) (c : Cursor) :
  is_connected self = true ->
  connection self = Some h ->
  parameters = None \/ parameters = Some [] ->
  do_cursor D h w = (Returned c, w1) ->
  exists rest,
    (rest = [] \/ rest = [CallFetchall c])
    /\ calls (snd (execute_stored_procedure D self name parameters w))
       = calls w
         ++ CallCursor h
         :: CallExecute c ("EXEC " ++ name) None
         :: rest.
Proof.
  intros Hi Hc Hp E1.
  rewrite (execute_calls_of_body D self h name parameters w Hi Hc).
  pose proof (logged_calls D (CallCursor h) (connection_cursor D h) w) as L1.
  fold (do_cursor D h w) in L1. rewrite E1 in L1. simpl in L1.
  unfold execute_body, bind. rewrite E1.
  assert (R : run_statement D c name parameters
              = do_execute D c ("EXEC " ++ name) None)
    by (destruct Hp as [-> | ->]; reflexivity).
  rewrite R.
  pose proof (logged_calls D (CallExecute c ("EXEC " ++ name) None)
                (cursor_execute D c ("EXEC " ++ name) None) w1) as L2.
  fold (do_execute D c ("EXEC " ++ name) None w1) in L2.
  destruct (do_execute D c ("EXEC " ++ name) None w1) as [[u | e] w2];
    simpl in L2.
  2: { exists []. split; [now left |]. simpl.
       rewrite L2, L1, <- !app_assoc. reflexivity. }
  unfold read_description.
  destruct (cursor_description D c (drv w2)) as [description | e].
  2: { exists []. split; [now left |]. simpl.
       rewrite L2, L1, <- !app_assoc. reflexivity. }
  pose proof (logged_calls D (CallFetchall c) (cursor_fetchall D c) w2) as L3.
  fold (do_fetchall D c w2) in L3.
  exists [CallFetchall c]. split; [now right |].
  destruct (do_fetchall D c w2) as [[rows | e] w3]; simpl in L3;
    [destruct (_ && _); [unfold computed; destruct (from_records D _ _) |]
    |]; unfold ret; simpl;
    rewrite L3, L2, L1, <- !app_assoc; reflexivity.
Qed.

Lemma statement_without_parameters_witness :
  (is_connected (connected_to 1) = true
   /\ connection (connected_to 1) = Some 1%nat
   /\ (Some (@nil (string * string)) = None
       \/ Some (@nil (string * string)) = Some [])
   /\ do_cursor (scripted two_rows) 1%nat (fresh_world two_rows)
      = (Returned 7%nat,
         Build_World (scripted two_rows) 0%nat [CallCursor 1%nat]))
  /\ exists rest,
       (rest = [] \/ rest = [CallFetchall 7%nat])
       /\ calls (snd (execute_stored_procedure (scripted two_rows)
                        (connected_to 1) "sp_GetEmployees" (Some [])
                        (fresh_world two_rows)))
          = calls (fresh_world two_rows)
            ++ CallCursor 1%nat
            :: CallExecute 7%nat ("EXEC " ++ "sp_GetEmployees") None
            :: rest.
Proof.
  split.
  - repeat split. now right.
  - exact (statement_without_parameters (scripted two_rows) (connected_to 1)
             1%nat "sp_GetEmployees" (Some []) (fresh_world two_rows)
             (Build_World (scripted two_rows) 0%nat [CallCursor 1%nat])
             7%nat eq_refl eq_refl (or_intror eq_refl) eq_refl).
Defined.

(** * Further properties of the procedure form *)

(** X14: the form reaches the driver only when the session is marked
    connected, the button was clicked and a procedure name was entered.  In
    every other case the render pass leaves the session state, including a
    result stored earlier, and the world as they were. *)
Theorem render_without_execution
    {Value : Type} (D : Driver Value) (form : ProcedureForm)
    (st : @SessionState Value) (w : World D) :
  is_connected (db_connection st) = false
  \/ execute_clicked form = false
  \/ procedure_name form = EmptyString ->
  fst (render_procedure_interface D form st w) = (st, w)
  /\ (is_connected (db_connection st) = true ->
      execute_clicked form = true ->
      snd (render_procedure_interface D form st w)
      = [Error "Please enter a stored procedure name"]).
Proof.
  intros H. unfold render_procedure_interface.
  destruct (is_connected (db_connection st)) eqn:Hi; simpl.
  2: { split; [reflexivity | discriminate]. }
  destruct (execute_clicked form) eqn:Hb; simpl.
  2: { split; [reflexivity | discriminate]. }
  destruct H as [H | [H | H]]; try discriminate.
  rewrite H. simpl. split; reflexivity.
Qed.

Lemma render_without_execution_witness :
  (is_connected (db_connection session_with_result) = false
   \/ execute_clicked (form_of EmptyString [("dept", "42")] true) = false
   \/ procedure_name (form_of EmptyString [("dept", "42")] true) = EmptyString)
  /\ (fst (render_procedure_interface (scripted two_rows)
             (form_of EmptyString [("dept", "42")] true)
             session_with_result (fresh_world two_rows))
      = (session_with_result, fresh_world two_rows)
      /\ (is_connected (db_connection session_with_result) = true ->
          execute_clicked (form_of EmptyString [("dept", "42")] true) = true ->
          snd (render_procedure_interface (scripted two_rows)
                 (form_of EmptyString [("dept", "42")] true)
                 session_with_result (fresh_world two_rows))
          = [Error "Please enter a stored procedure name"])).
Proof.
  split.
  - right. right. reflexivity.
  - exact (render_without_execution (scripted two_rows)
             (form_of EmptyString [("dept", "42")] true)
             session_with_result (fresh_world two_rows)
             (or_intror (or_intror eq_refl))).
Defined.

(** X15: a render pass of the form never changes the connection object nor
    the connection status kept in the session, whatever it is given. *)
Theorem render_keeps_connection
    {Value : Type} (D : Driver Value) (form : ProcedureForm)
    (st : @SessionState Value) (w : World D) :
  db_connection (fst (fst (render_procedure_interface D form st w)))
  = db_connection st
  /\ connection_status (fst (fst (render_procedure_interface D form st w)))
     = connection_status st.
Proof.
  unfold render_procedure_interface.
  destruct (is_connected (db_connection st)); simpl; [| now split].
  destruct (execute_clicked form); simpl; [| now split].
  destruct (Py.truthy_str (procedure_name form)); simpl; [| now split].
  destruct (execute_stored_procedure D (db_connection st)
              (procedure_name form) (call_parameters form) w)
    as [[[[|] data] message] w']; simpl; now split.
Qed.

(** X16: when the button is clicked on a connected session with a
    procedure name and the driver answers the execution, the render pass
    stores and shows what execute_stored_procedure makes of the answer.  With
    columns and rows: the frame from_records returns, with the message that
    counts the rows, or, when from_records raises, None with the error
    message.  Without: the empty frame with the "No data returned."
    message. *)
Theorem answered_execution_stored
    {Value : Type} (D : Driver Value) (form : ProcedureForm)
    (st : @SessionState Value) (h : Handle) (w : World D) (c : Cursor)
    (description : option (list ColumnDescription))
    (rows : list (list Value)) (w' : World D) :
  is_connected (db_connection st) = true ->
  connection (db_connection st) = Some h ->
  execute_clicked form = true ->
  procedure_name form <> EmptyString ->
  answered D h (procedure_name form) (call_parameters form) w c
    description rows w' ->
  render_procedure_interface D form st w
  = match description, rows with
    | Some ((_ :: _) as d), _ :: _ =>
        match from_records D rows (map column_0 d) with
        | Returned df =>
            (set_last_result st (Some df), w',
             [Success ("Procedure executed successfully. "
                       ++ Py.str_of_nat (length rows) ++ " rows returned.")])
        | Raised (PyodbcError text) =>
            (set_last_result st None, w', [Error ("SQL Error: " ++ text)])
        | Raised (OtherException text) =>
            (set_last_result st None, w',
             [Error ("Unexpected error: " ++ text)])
        end
    | _, _ =>
        (set_last_result st (Some DataFrame_empty), w',
         [Success "Procedure executed successfully. No data returned."])
    end.
Proof.
  intros Hi Hc Hb Hn A. unfold render_procedure_interface.
  rewrite Hi, Hb. simpl.
  apply truthy_str_true in Hn. rewrite Hn. simpl.
  rewrite (execute_answered D (db_connection st) h (procedure_name form)
             (call_parameters form) w c description rows w' Hi Hc A).
  destruct description as [[| col d] |]; destruct rows as [| r rows];
    try reflexivity.
  destruct (from_records D (r :: rows) (map column_0 (col :: d)))
    as [df | [t | t]]; reflexivity.
Qed.

Lemma answered_execution_stored_witness :
  (is_connected (db_connection session_connected) = true
   /\ connection (db_connection session_connected) = Some 1%nat
   /\ execute_clicked employees_form = true
   /\ procedure_name employees_form <> EmptyString
   /\ answered (scripted two_rows) 1%nat (procedure_name employees_form)
        (call_parameters employees_form) (fresh_world two_rows) 7%nat
        (Some id_name_description)
        [[CInt 1; CStr "a"]; [CInt 2; CStr "b"]] (after_employees two_rows))
  /\ render_procedure_interface (scripted two_rows) employees_form
       session_connected (fresh_world two_rows)
     = (set_last_result session_connected
          (Some {| df_columns := ["id"; "name"]%string;
                   df_rows := [[CInt 1; CStr "a"]; [CInt 2; CStr "b"]] |}),
        after_employees two_rows,
        [Success "Procedure executed successfully. 2 rows returned."]).
Proof.
  assert (A : answered (scripted two_rows) 1%nat
                (procedure_name employees_form)
                (call_parameters employees_form) (fresh_world two_rows) 7%nat
                (Some id_name_description)
                [[CInt 1; CStr "a"]; [CInt 2; CStr "b"]]
                (after_employees two_rows)).
  { unfold answered.
    exists (Build_World (scripted two_rows) 0%nat [CallCursor 1%nat]).
    exists (Build_World (scripted two_rows) 0%nat
              [CallCursor 1%nat;
               CallExecute 7%nat "EXEC sp_GetEmployees ?" (Some ["42"%string])]).
    split; [| split; [| split]]; vm_compute; reflexivity. }
  split.
  - repeat split; try discriminate. exact A.
  - apply (answered_execution_stored (scripted two_rows) employees_form
             session_connected 1%nat (fresh_world two_rows) 7%nat
             (Some id_name_description)
             [[CInt 1; CStr "a"]; [CInt 2; CStr "b"]]
             (after_employees two_rows));
      [reflexivity | reflexivity | reflexivity | discriminate | exact A].
Defined.

(** *** The parameters collected from the slots *)

Lemma setitem_new (d : Py.dict) (k v : string) :
  ~ In k (Py.keys d) -> Py.setitem d k v = d ++ [(k, v)].
Proof.
  induction d as [| [a b] d IH]; simpl; intros N.
  - reflexivity.
  - destruct (a =? k)%string eqn:E.
    + apply String.eqb_eq in E. exfalso. apply N. now left.
    + rewrite IH; [reflexivity |]. intros H. apply N. now right.
Qed.

Lemma setitem_length (d : Py.dict) (k v : string) :
  length (Py.setitem d k v) <= S (length d).
Proof.
  induction d as [| [a b] d IH]; simpl; [lia |].
  destruct (a =? k)%string; simpl; lia.
Qed.

Lemma setitem_not_empty (d : Py.dict) (k v : string) :
  Py.setitem d k v <> [].
Proof.
  destruct d as [| [a b] d]; simpl; [discriminate |].
  destruct (a =? k)%string; discriminate.
Qed.

Lemma parameters_after_length (form : ProcedureForm) (n : nat) :
  length (parameters_after form n) <= n.
Proof.
  induction n as [| n IH]; [simpl; lia |].
  rewrite after_S. unfold collect_slot.
  destruct (_ && _); [| lia].
  pose proof (setitem_length (parameters_after form n)
                (param_name form n) (param_value form n)). lia.
Qed.

(** X17: the mapping built from the slots has pairwise distinct names, at
    most one entry per slot, and each entry is the non-empty name and the
    non-empty value of one of the slots. *)
Theorem collected_parameters_well_formed (form : ProcedureForm) :
  NoDup (Py.keys (collect_parameters form))
  /\ length (collect_parameters form) <= num_params form
  /\ forall k v,
       In (k, v) (collect_parameters form) ->
       k <> EmptyString /\ v <> EmptyString
       /\ exists i,
            i < num_params form
            /\ param_name form i = k /\ param_value form i = v.
Proof.
  rewrite collect_parameters_after.
  split; [apply after_keys_unique |].
  split; [apply parameters_after_length |].
  intros k v H.
  apply item_iff_get in H; [| apply after_keys_unique].
  rewrite after_get in H. apply last_entered_some in H.
  destruct H as (j & Hj & Hk & Hv & Hn & Hw & _).
  split; [congruence |]. split; [congruence |]. now exists j.
Qed.

Lemma filled_slots_S (form : ProcedureForm) (n : nat) :
  filter (filled_in form) (seq 0 (S n))
  = filter (filled_in form) (seq 0 n)
    ++ (if filled_in form n then [n] else []).
Proof.
  rewrite seq_S, filter_app. simpl. now destruct (filled_in form n).
Qed.

Lemma parameters_after_distinct (form : ProcedureForm) (n : nat) :
  NoDup (map (param_name form) (filter (filled_in form) (seq 0 n))) ->
  parameters_after form n
  = map (fun i => (param_name form i, param_value form i))
      (filter (filled_in form) (seq 0 n)).
Proof.
  induction n as [| n IH]; [reflexivity |].
  rewrite filled_slots_S, after_S. unfold collect_slot.
  fold (filled_in form n).
  destruct (filled_in form n).
  - rewrite !map_app. simpl. intros N.
    apply NoDup_remove in N. rewrite app_nil_r in N. destruct N as [N1 N2].
    rewrite (IH N1). apply setitem_new.
    unfold Py.keys. rewrite map_map. simpl. exact N2.
  - rewrite app_nil_r. exact IH.
Qed.

(** X18: when the slots that have both a name and a value carry pairwise
    distinct names, the mapping passed to the call is exactly those slots, in
    the order of the form. *)
Theorem distinct_names_all_collected (form : ProcedureForm) :
  NoDup (map (param_name form)
           (filter (filled_in form) (seq 0 (num_params form)))) ->
  collect_parameters form
  = map (fun i => (param_name form i, param_value form i))
      (filter (filled_in form) (seq 0 (num_params form))).
Proof.
  intros N. rewrite collect_parameters_after.
  now apply parameters_after_distinct.
Qed.

Lemma distinct_names_all_collected_witness :
  NoDup (map (param_name gap_form)
           (filter (filled_in gap_form) (seq 0 (num_params gap_form))))
  /\ collect_parameters gap_form
     = map (fun i => (param_name gap_form i, param_value gap_form i))
         (filter (filled_in gap_form) (seq 0 (num_params gap_form))).
Proof.
  assert (N : NoDup (map (param_name gap_form)
                       (filter (filled_in gap_form)
                          (seq 0 (num_params gap_form))))).
  { vm_compute. repeat constructor; simpl; intuition discriminate. }
  split.
  - exact N.
  - exact (distinct_names_all_collected gap_form N).
Defined.

(** On that form the first and the third slot are passed, in this order. *)
Example gap_form_parameters :
  call_parameters gap_form = Some [("a", "1"); ("c", "3")]%string.
Proof. reflexivity. Qed.

Lemma parameters_after_empty (form : ProcedureForm) (n : nat) :
  parameters_after form n = [] <->
  forall i, i < n -> filled_in form i = false.
Proof.
  induction n as [| n IH].
  - split; [intros _ i Hi; lia | reflexivity].
  - rewrite after_S. unfold collect_slot. fold (filled_in form n).
    destruct (filled_in form n) eqn:F.
    + split.
      * intros E. now apply setitem_not_empty in E.
      * intros H. specialize (H n (Nat.lt_succ_diag_r n)). congruence.
    + rewrite IH. split; intros H i Hi.
      * destruct (Nat.eq_dec i n) as [-> | Hne]; [exact F | apply H; lia].
      * apply H. lia.
Qed.

(** X19: the form passes None for the parameters exactly when no slot has
    both a name and a value; otherwise it passes a non-empty mapping. *)
Theorem no_parameters_iff_no_filled_slot (form : ProcedureForm) :
  (call_parameters form = None <->
   forall i, i < num_params form -> filled_in form i = false)
  /\ call_parameters form <> Some [].
Proof.
  unfold call_parameters. rewrite collect_parameters_after.
  rewrite <- parameters_after_empty.
  destruct (parameters_after form (num_params form)); simpl.
  - repeat split; discriminate.
  - repeat split; discriminate.
Qed.

(** * Properties of the sidebar *)

Lemma toggle_settings_not_connected
    {Value : Type} (form : SidebarForm) (s : Session Value) :
  is_connected (db_connection (core s)) = false ->
  toggle_settings form s = s.
Proof. intros E. unfold toggle_settings. now rewrite E. Qed.

Lemma str_not_truthy (s : string) :
  s = EmptyString -> Py.truthy_str s = false.
Proof. now intros ->. Qed.

(** The sidebar of a session that is not connected: the Connect column on
    the entries of the form, then the Disconnect column and the status. *)
Lemma render_sidebar_not_connected
    {Value : Type} (D : Driver Value) (form : SidebarForm)
    (s : Session Value) (w : World D) :
  is_connected (db_connection (core s)) = false ->
  render_sidebar D form s w
  = match connect_column D form (server_input form) (database_input form)
            (auth_label (auth_input form))
            (typed_username form) (typed_password form) s w with
    | (s1, w1, banners, true) => (s1, w1, banners, true)
    | (s1, w1, banners, false) =>
        match disconnect_column D form s1 w1 with
        | (s2, w2, true) => (s2, w2, banners, true)
        | (s2, w2, false) => (s2, w2, banners ++ status_banner s2, false)
        end
    end.
Proof.
  intros Hi. unfold render_sidebar.
  rewrite (toggle_settings_not_connected form s Hi).
  rewrite Hi, orb_true_r. cbn [negb andb].
  unfold typed_username, typed_password.
  now destruct (auth_input form).
Qed.

Lemma disconnect_column_not_connected
    {Value : Type} (D : Driver Value) (form : SidebarForm)
    (s : Session Value) (w : World D) :
  is_connected (db_connection (core s)) = false ->
  disconnect_column D form s w = (s, w, false).
Proof. intros Hi. unfold disconnect_column. now rewrite Hi. Qed.

(** X20: when Connect is clicked on a form that lacks the server, the
    database or, with SQL Server authentication, the username or the password,
    the sidebar shows an error and nothing else happens: no call to the
    driver, no change of the session, no rerun. *)
Theorem sidebar_rejects_incomplete_form
    {Value : Type} (D : Driver Value) (form : SidebarForm)
    (s : Session Value) (w : World D) :
  is_connected (db_connection (core s)) = false ->
  connect_clicked form = true ->
  server_input form = EmptyString
  \/ database_input form = EmptyString
  \/ (auth_input form = ChooseSqlServer
      /\ (username_input form = EmptyString
          \/ password_input form = EmptyString)) ->
  exists text,
    render_sidebar D form s w = (s, w, Error text :: status_banner s, false).
Proof.
  intros Hi Hb H.
  rewrite (render_sidebar_not_connected D form s w Hi).
  unfold connect_column. rewrite Hi, Hb. cbn [negb].
  destruct (Py.truthy_str (server_input form)) eqn:Ts; cbn [negb orb].
  2: { rewrite (disconnect_column_not_connected D form s w Hi).
       eexists. reflexivity. }
  destruct (Py.truthy_str (database_input form)) eqn:Td; cbn [negb orb].
  2: { rewrite (disconnect_column_not_connected D form s w Hi).
       eexists. reflexivity. }
  destruct H as [H | [H | (Ha & H)]].
  - apply str_not_truthy in H. congruence.
  - apply str_not_truthy in H. congruence.
  - unfold typed_username, typed_password. rewrite Ha.
    assert (T : (auth_label ChooseSqlServer =? "SQL Server")%string
                && (negb (truthy_opt_str (Some (username_input form)))
                    || negb (truthy_opt_str (Some (password_input form))))
                = true).
    { simpl.
      destruct H as [H | H]; apply str_not_truthy in H; rewrite H; simpl;
        [reflexivity | apply orb_true_r]. }
    rewrite T.
    rewrite (disconnect_column_not_connected D form s w Hi).
    eexists. reflexivity.
Qed.

Lemma sidebar_rejects_incomplete_form_witness :
  (is_connected (db_connection (core first_session)) = false
   /\ connect_clicked
        (connect_form "localhost" "Sales" ChooseSqlServer "sa" EmptyString)
      = true
   /\ (server_input
         (connect_form "localhost" "Sales" ChooseSqlServer "sa" EmptyString)
       = EmptyString
       \/ database_input
            (connect_form "localhost" "Sales" ChooseSqlServer "sa" EmptyString)
          = EmptyString
       \/ (auth_input
             (connect_form "localhost" "Sales" ChooseSqlServer "sa"
                EmptyString)
           = ChooseSqlServer
           /\ (username_input
                 (connect_form "localhost" "Sales" ChooseSqlServer "sa"
                    EmptyString)
               = EmptyString
               \/ password_input
                    (connect_form "localhost" "Sales" ChooseSqlServer "sa"
                       EmptyString)
                  = EmptyString))))
  /\ exists text,
       render_sidebar (scripted two_rows)
         (connect_form "localhost" "Sales" ChooseSqlServer "sa" EmptyString)
         first_session (fresh_world two_rows)
       = (first_session, fresh_world two_rows,
          Error text :: status_banner first_session, false).
Proof.
  split.
  - repeat split. right. right. split; [reflexivity | now right].
  - apply (sidebar_rejects_incomplete_form (scripted two_rows)
             (connect_form "localhost" "Sales" ChooseSqlServer "sa"
                EmptyString)
             first_session (fresh_world two_rows));
      [reflexivity | reflexivity |].
    right. right. split; [reflexivity | now right].
Defined.

Lemma connect_column_complete
    {Value : Type} (D : Driver Value) (form : SidebarForm)
    (s : Session Value) (w : World D) :
  is_connected (db_connection (core s)) = false ->
  connect_clicked form = true ->
  form_complete form ->
  connect_column D form (server_input form) (database_input form)
    (auth_label (auth_input form)) (typed_username form) (typed_password form)
    s w
  = match connect D (db_connection (core s))
            (server_input form) (database_input form)
            (auth_label (auth_input form))
            (typed_username form) (typed_password form) w with
    | ((success, message), manager, w') =>
        if success then
          ({| core := {| db_connection := manager;
                         connection_status := Some (success, message);
                         last_result := last_result (core s) |};
              show_connection_area := show_connection_area s;
              stored_connection_info :=
                {| stored_server := server_input form;
                   stored_database := database_input form;
                   stored_auth_type := auth_label (auth_input form);
                   stored_username :=
                     match auth_input form with
                     | ChooseSqlServer => username_input form
                     | ChooseWindows => EmptyString
                     end |};
              password_key := (password_key s + 1)%Z |},
           w', [], true)
        else
          (with_core s
             {| db_connection := manager;
                connection_status := Some (success, message);
                last_result := last_result (core s) |},
           w', [], false)
    end.
Proof.
  intros Hi Hb (Hs & Hd & Hc).
  unfold connect_column. rewrite Hi, Hb. cbn [negb].
  apply truthy_str_true in Hs, Hd. rewrite Hs, Hd. cbn [negb orb].
  unfold typed_username, typed_password.
  destruct (auth_input form) eqn:Ha.
  - cbn. destruct (connect D _ _ _ _ _ _ w) as [[[[|] message] manager] w'];
      reflexivity.
  - destruct (Hc eq_refl) as [Hu Hp].
    apply truthy_str_true in Hu, Hp. cbn. rewrite Hu, Hp. cbn.
    destruct (connect D _ _ _ _ _ _ w) as [[[[|] message] manager] w'];
      reflexivity.
Qed.

(** X21: when Connect is clicked on a complete form and the driver returns
    a handle, the session holds the connected object and the status
    (True, "Connected successfully!"), remembers server, database,
    authentication type and username (the empty string with Windows
    authentication) but not the password, has its password key increased by
    one, keeps its last result, and the run ends with a rerun. *)
Theorem sidebar_connect_success
    {Value : Type} (D : Driver Value) (form : SidebarForm)
    (s : Session Value) (w : World D) (h : Handle) (s' : dstate D) :
  is_connected (db_connection (core s)) = false ->
  connect_clicked form = true ->
  form_complete form ->
  pyodbc_connect D
    (connection_string (server_input form) (database_input form)
       (auth_label (auth_input form))
       (typed_username form) (typed_password form))
    10 (drv w)
  = (Returned h, s') ->
  render_sidebar D form s w
  = ({| core := {| db_connection := connected_to h;
                   connection_status :=
                     Some (true, "Connected successfully!"%string);
                   last_result := last_result (core s) |};
        show_connection_area := show_connection_area s;
        stored_connection_info :=
          {| stored_server := server_input form;
             stored_database := database_input form;
             stored_auth_type := auth_label (auth_input form);
             stored_username :=
               match auth_input form with
               | ChooseSqlServer => username_input form
               | ChooseWindows => EmptyString
               end |};
        password_key := (password_key s + 1)%Z |},
     {| drv := s';
        calls := calls w ++
          [CallConnect
             (connection_string (server_input form) (database_input form)
                (auth_label (auth_input form))
                (typed_username form) (typed_password form))
             10] |},
     [], true).
Proof.
  intros Hi Hb Hf E.
  rewrite (render_sidebar_not_connected D form s w Hi).
  rewrite (connect_column_complete D form s w Hi Hb Hf).
  unfold connect, do_connect. rewrite (logged_eq D _ _ w _ _ E).
  reflexivity.
Qed.

Lemma sidebar_connect_success_witness :
  (is_connected (db_connection (core first_session)) = false
   /\ connect_clicked
        (connect_form "localhost" "Sales" ChooseSqlServer "sa" "pw") = true
   /\ form_complete
        (connect_form "localhost" "Sales" ChooseSqlServer "sa" "pw")
   /\ pyodbc_connect (scripted two_rows)
        (connection_string "localhost" "Sales" "SQL Server"
           (Some "sa") (Some "pw"))
        10 (drv (fresh_world two_rows))
      = (Returned 1%nat, 0%nat))
  /\ render_sidebar (scripted two_rows)
       (connect_form "localhost" "Sales" ChooseSqlServer "sa" "pw")
       first_session (fresh_world two_rows)
     = ({| core := {| db_connection := connected_to 1;
                      connection_status :=
                        Some (true, "Connected successfully!"%string);
                      last_result := None |};
           show_connection_area := true;
           stored_connection_info :=
             {| stored_server := "localhost";
                stored_database := "Sales";
                stored_auth_type := "SQL Server";
                stored_username := "sa" |};
           password_key := 1%Z |},
        Build_World (scripted two_rows) 0%nat
          [CallConnect
             "DRIVER={ODBC Driver 17 for SQL Server};SERVER=localhost;DATABASE=Sales;UID=sa;PWD=pw;"
             10],
        [], true).
Proof.
  assert (F : form_complete
                (connect_form "localhost" "Sales" ChooseSqlServer "sa" "pw")).
  { unfold form_complete. simpl. repeat split; discriminate. }
  split.
  - repeat split; try discriminate; exact F.
  - exact (sidebar_connect_success (scripted two_rows)
             (connect_form "localhost" "Sales" ChooseSqlServer "sa" "pw")
             first_session (fresh_world two_rows) 1%nat 0%nat
             eq_refl eq_refl F eq_refl).
Defined.

(** X22: when Connect is clicked on a complete form and the driver raises,
    the session records the status (False, message) and shows it as an error;
    the remembered connection details and the password key stay as they were,
    the object is marked not connected, and the run goes on without rerun. *)
Theorem sidebar_connect_failure
    {Value : Type} (D : Driver Value) (form : SidebarForm)
    (s : Session Value) (w : World D) (e : exn) (s' : dstate D) :
  is_connected (db_connection (core s)) = false ->
  connect_clicked form = true ->
  form_complete form ->
  pyodbc_connect D
    (connection_string (server_input form) (database_input form)
       (auth_label (auth_input form))
       (typed_username form) (typed_password form))
    10 (drv w)
  = (Raised e, s') ->
  exists message,
    message = match e with
              | PyodbcError text => ("Connection failed: " ++ text)%string
              | OtherException text => ("Unexpected error: " ++ text)%string
              end
    /\ render_sidebar D form s w
       = ({| core :=
               {| db_connection :=
                    {| connection := connection (db_connection (core s));
                       is_connected := false |};
                  connection_status := Some (false, message);
                  last_result := last_result (core s) |};
             show_connection_area := show_connection_area s;
             stored_connection_info := stored_connection_info s;
             password_key := password_key s |},
          {| drv := s';
             calls := calls w ++
               [CallConnect
                  (connection_string (server_input form) (database_input form)
                     (auth_label (auth_input form))
                     (typed_username form) (typed_password form))
                  10] |},
          [Error ("❌ " ++ message)], false).
Proof.
  intros Hi Hb Hf E.
  rewrite (render_sidebar_not_connected D form s w Hi).
  rewrite (connect_column_complete D form s w Hi Hb Hf).
  unfold connect, do_connect. rewrite (logged_eq D _ _ w _ _ E).
  destruct e as [t | t]; eexists; (split; [reflexivity |]);
    rewrite disconnect_column_not_connected by reflexivity; reflexivity.
Qed.

Lemma sidebar_connect_failure_witness :
  (is_connected (db_connection (core first_session)) = false
   /\ connect_clicked
        (connect_form "localhost" "Sales" ChooseSqlServer "sa" "pw") = true
   /\ form_complete
        (connect_form "localhost" "Sales" ChooseSqlServer "sa" "pw")
   /\ pyodbc_connect (scripted login_refused)
        (connection_string "localhost" "Sales" "SQL Server"
           (Some "sa") (Some "pw"))
        10 (drv (fresh_world login_refused))
      = (Raised (PyodbcError "Login failed for user 'sa'."), 0%nat))
  /\ exists message,
       message = "Connection failed: Login failed for user 'sa'."%string
       /\ render_sidebar (scripted login_refused)
            (connect_form "localhost" "Sales" ChooseSqlServer "sa" "pw")
            first_session (fresh_world login_refused)
          = ({| core := {| db_connection := init;
                           connection_status := Some (false, message);
                           last_result := None |};
                show_connection_area := true;
                stored_connection_info := default_connection_info;
                password_key := 0%Z |},
             Build_World (scripted login_refused) 0%nat
               [CallConnect
                  "DRIVER={ODBC Driver 17 for SQL Server};SERVER=localhost;DATABASE=Sales;UID=sa;PWD=pw;"
                  10],
             [Error ("❌ " ++ message)], false).
Proof.
  assert (F : form_complete
                (connect_form "localhost" "Sales" ChooseSqlServer "sa" "pw")).
  { unfold form_complete. simpl. repeat split; discriminate. }
  split.
  - repeat split; try discriminate; exact F.
  - exact (sidebar_connect_failure (scripted login_refused)
             (connect_form "localhost" "Sales" ChooseSqlServer "sa" "pw")
             first_session (fresh_world login_refused)
             (PyodbcError "Login failed for user 'sa'.") 0%nat
             eq_refl eq_refl F eq_refl).
Defined.

(** X23: when Disconnect is clicked in the settings of a connected
    session, the sidebar, which has shown "Connected to Database" at its top,
    calls disconnect once, forgets the last result, records the returned
    message with the flag False, even when disconnect reported success, and
    ends the run with a rerun before any status message is shown. *)
Theorem sidebar_disconnect
    {Value : Type} (D : Driver Value) (form : SidebarForm)
    (s : Session Value) (w w' : World D)
    (success : bool) (message : string) (m : SQLServerConnection) :
  is_connected (db_connection (core s)) = true ->
  show_connection_area (toggle_settings form s) = true ->
  disconnect_clicked form = true ->
  disconnect D (db_connection (core s)) w = ((success, message), m, w') ->
  render_sidebar D form s w
  = (with_core (toggle_settings form s)
       {| db_connection := m;
          connection_status := Some (false, message);
          last_result := None |},
     w', [Success "✅ Connected to Database"], true).
Proof.
  intros Hi Hs Hb E. unfold render_sidebar.
  assert (T : db_connection (core (toggle_settings form s))
              = db_connection (core s)).
  { unfold toggle_settings. rewrite Hi. now destruct (settings_clicked form). }
  rewrite T, Hi, Hs. cbn [negb orb andb].
  unfold connect_column. rewrite T, Hi. cbn [negb].
  unfold disconnect_column. rewrite T, Hi, Hb, E. reflexivity.
Qed.

Lemma sidebar_disconnect_witness :
  (is_connected (db_connection (core working_session)) = true
   /\ show_connection_area (toggle_settings disconnect_form working_session)
      = true
   /\ disconnect_clicked disconnect_form = true
   /\ disconnect (scripted two_rows) (db_connection (core working_session))
        after_connect
      = ((true, "Disconnected successfully"%string),
         {| connection := Some 1%nat; is_connected := false |},
         after_disconnect))
  /\ render_sidebar (scripted two_rows) disconnect_form working_session
       after_connect
     = (with_core (toggle_settings disconnect_form working_session)
          {| db_connection :=
               {| connection := Some 1%nat; is_connected := false |};
             connection_status :=
               Some (false, "Disconnected successfully"%string);
             last_result := None |},
        after_disconnect, [Success "✅ Connected to Database"], true).
Proof.
  split.
  - repeat split.
  - exact (sidebar_disconnect (scripted two_rows) disconnect_form
             working_session after_connect after_disconnect
             true "Disconnected successfully"
             {| connection := Some 1%nat; is_connected := false |}
             eq_refl eq_refl eq_refl eq_refl).
Defined.

(** X24: the sidebar of a connected session touches the connection only
    through Disconnect: when that button is not clicked, or the settings are
    hidden, the world and the three core entries of the session stay as they
    were and the run is not ended; at most the settings toggle flips. *)
Theorem sidebar_connected_idle
    {Value : Type} (D : Driver Value) (form : SidebarForm)
    (s : Session Value) (w : World D) :
  is_connected (db_connection (core s)) = true ->
  disconnect_clicked form = false
  \/ show_connection_area (toggle_settings form s) = false ->
  exists banners,
    render_sidebar D form s w = (toggle_settings form s, w, banners, false)
    /\ core (toggle_settings form s) = core s.
Proof.
  intros Hi H. unfold render_sidebar.
  assert (C : core (toggle_settings form s) = core s).
  { unfold toggle_settings. rewrite Hi. now destruct (settings_clicked form). }
  rewrite C, Hi. cbn [negb andb]. rewrite orb_false_r.
  destruct (show_connection_area (toggle_settings form s)) eqn:Hs.
  - destruct H as [H | H]; [| discriminate].
    unfold connect_column. rewrite C, Hi. cbn [negb].
    unfold disconnect_column. rewrite C, Hi, H.
    eexists. split; reflexivity.
  - eexists. split; reflexivity.
Qed.

Lemma sidebar_connected_idle_witness :
  (is_connected (db_connection (core working_session)) = true
   /\ (disconnect_clicked idle_sidebar = false
       \/ show_connection_area (toggle_settings idle_sidebar working_session)
          = false))
  /\ exists banners,
       render_sidebar (scripted two_rows) idle_sidebar working_session
         after_connect
       = (toggle_settings idle_sidebar working_session, after_connect,
          banners, false)
       /\ core (toggle_settings idle_sidebar working_session)
          = core working_session.
Proof.
  split.
  - split; [reflexivity | now left].
  - exact (sidebar_connected_idle (scripted two_rows) idle_sidebar
             working_session after_connect eq_refl (or_introl eq_refl)).
Defined.

(** * Properties of the script *)

(** X25: initialize_session_state gives every key a value and changes no
    key that is present: applied twice it does what it does once, and a
    session that already has its keys reads the same before and after, so
    the connection, the status and the last result survive from one run of
    the script to the next. *)
Theorem initialize_session_state_settles
    {Value : Type} (r : RawSession Value) :
  initialize_session_state (initialize_session_state r)
  = initialize_session_state r
  /\ (exists s, session_of (initialize_session_state r) = Some s)
  /\ (forall s, session_of r = Some s ->
        session_of (initialize_session_state r) = Some s).
Proof.
  destruct r as [c status result params shown info key].
  split; [| split].
  - unfold initialize_session_state. simpl.
    destruct c, status, result, params, shown, info, key; reflexivity.
  - unfold initialize_session_state, session_of. simpl.
    destruct c, status, result, shown, info, key; simpl; eauto.
  - intros s. unfold initialize_session_state, session_of. simpl.
    destruct c, status, result, shown, info, key; simpl;
      try discriminate; auto.
Qed.

(** The first run starts from a manager that is not connected, no result,
    the settings shown and password key 0. *)
Example first_run_session :
  session_of (initialize_session_state (@new_session Cell))
  = Some first_session.
Proof. reflexivity. Qed.

(** *** The preview of the CSV text *)

Lemma string_length_append (a b : string) :
  String.length (a ++ b) = String.length a + String.length b.
Proof. induction a as [| c a IH]; simpl; [reflexivity | now rewrite IH]. Qed.

Lemma substring_0_length (n : nat) (s : string) :
  String.length (substring 0 n s) = Nat.min n (String.length s).
Proof.
  revert s. induction n as [| n IH]; intros [| c s]; simpl; auto.
Qed.

Lemma substring_0_all (n : nat) (s : string) :
  String.length s <= n -> substring 0 n s = s.
Proof.
  revert s. induction n as [| n IH]; intros [| c s]; simpl; intros L;
    try reflexivity; try lia.
  rewrite IH; [reflexivity | lia].
Qed.

Lemma substring_0_append (n : nat) (s t : string) :
  n <= String.length s ->
  substring 0 n (substring 0 n s ++ t) = substring 0 n s.
Proof.
  revert s. induction n as [| n IH]; intros [| c s]; simpl; intros L.
  - now destruct t.
  - now destruct t.
  - lia.
  - rewrite IH; [reflexivity | lia].
Qed.

(** X26: the preview of the CSV text is the text itself when it has at
    most 1000 characters; otherwise it is its first 1000 characters followed
    by three dots.  It never has more than 1003 characters and always starts
    like the text. *)
Theorem csv_preview_bounds (csv_data : string) :
  String.length (csv_preview csv_data) <= 1003
  /\ substring 0 1000 (csv_preview csv_data) = substring 0 1000 csv_data
  /\ (String.length csv_data <= 1000 -> csv_preview csv_data = csv_data)
  /\ (1000 < String.length csv_data ->
      csv_preview csv_data = (substring 0 1000 csv_data ++ "...")%string
      /\ String.length (csv_preview csv_data) = 1003).
Proof.
  unfold csv_preview.
  destruct (Nat.ltb_spec 1000 (String.length csv_data)) as [L | L].
  - assert (E : String.length (substring 0 1000 csv_data ++ "...") = 1003).
    { rewrite string_length_append, substring_0_length.
      change (String.length "...") with 3. lia. }
    split; [lia |].
    split; [apply substring_0_append; lia |].
    split; [lia |].
    intros _. split; [reflexivity | exact E].
  - split; [lia |].
    split; [reflexivity |].
    split; [reflexivity | lia].
Qed.

(** *** One run of the script *)

Lemma main_tabs
    {Value : Type} (D : Driver Value) (to_csv : DataFrame Value -> string)
    (sidebar : SidebarForm) (form : ProcedureForm) (export : ExportForm)
    (timestamp : string) (r : RawSession Value) (w w1 w2 : World D)
    (s s1 : Session Value) (banners banners2 : list Banner)
    (c2 : @SessionState Value) :
  session_of (initialize_session_state r) = Some s ->
  render_sidebar D sidebar s w = (s1, w1, banners, false) ->
  render_procedure_interface D form (core s1) w1 = (c2, w2, banners2) ->
  main D to_csv sidebar form export timestamp r w
  = (store (initialize_session_state r) (with_core s1 c2), w2,
     banners ++ banners2,
     Some (render_results_and_export to_csv export timestamp c2)).
Proof.
  intros Hs Hb Hr. unfold main. now rewrite Hs, Hb, Hr.
Qed.

(** X27: in a run whose sidebar does not end it, a clicked, named form on
    a connected session whose execution the driver answers with columns and
    rows, and for which from_records returns a frame, stores that frame
    (labelled with the column names, one record per fetched row) and shows it
    in the results tab of the same run,
    with the whole CSV text as download data under the displayed file name
    (base name, then "_" and the timestamp when asked for, then ".csv"), the
    MIME type text/csv and the preview of that text. *)
Theorem run_with_rows_offers_export
    {Value : Type} (D : Driver Value) (to_csv : DataFrame Value -> string)
    (sidebar : SidebarForm) (form : ProcedureForm) (export : ExportForm)
    (timestamp : string) (r : RawSession Value) (w w1 w2 : World D)
    (s s1 : Session Value) (banners : list Banner)
    (h : Handle) (c : Cursor) (d : list ColumnDescription)
    (rows : list (list Value)) (df : DataFrame Value) :
  session_of (initialize_session_state r) = Some s ->
  render_sidebar D sidebar s w = (s1, w1, banners, false) ->
  is_connected (db_connection (core s1)) = true ->
  connection (db_connection (core s1)) = Some h ->
  execute_clicked form = true ->
  procedure_name form <> EmptyString ->
  answered D h (procedure_name form) (call_parameters form) w1 c
    (Some d) rows w2 ->
  d <> [] ->
  rows <> [] ->
  from_records D rows (map column_0 d) = Returned df ->
  main D to_csv sidebar form export timestamp r w
  = (store (initialize_session_state r)
       (with_core s1 (set_last_result (core s1) (Some df))),
     w2,
     banners ++
     [Success ("Procedure executed successfully. "
               ++ Py.str_of_nat (length rows) ++ " rows returned.")],
     Some (Export df
             (if include_timestamp export
              then base_filename export ++ "_" ++ timestamp ++ ".csv"
              else base_filename export ++ ".csv")
             (to_csv df)
             (if include_timestamp export
              then base_filename export ++ "_" ++ timestamp ++ ".csv"
              else base_filename export ++ ".csv")
             "text/csv"
             (if copy_clicked export then Some (to_csv df) else None)
             (csv_preview (to_csv df))))
  /\ df_columns df = map column_0 d
  /\ length (df_rows df) = length rows.
Proof.
  intros Hs Hb Hi Hc Hk Hn A Hd Hr F.
  destruct (from_records_shape D _ _ df F) as [Fc Fr].
  split; [| split; assumption].
  assert (R : render_procedure_interface D form (core s1) w1
              = (set_last_result (core s1) (Some df), w2,
                 [Success ("Procedure executed successfully. "
                           ++ Py.str_of_nat (length rows)
                           ++ " rows returned.")])).
  { unfold render_procedure_interface. rewrite Hi, Hk. cbn [negb].
    apply truthy_str_true in Hn. rewrite Hn. cbn [negb].
    rewrite (execute_answered D (db_connection (core s1)) h
               (procedure_name form) (call_parameters form) w1 c (Some d)
               rows w2 Hi Hc A).
    destruct d as [| col d]; [contradiction |].
    destruct rows as [| row rows]; [contradiction |].
    now rewrite F. }
  rewrite (main_tabs D to_csv sidebar form export timestamp r w w1 w2 s s1
             banners _ _ Hs Hb R).
  unfold render_results_and_export, set_last_result, df_is_empty.
  cbn [last_result]. rewrite Fc.
  destruct d as [| col d]; [contradiction |].
  destruct (df_rows df) as [| record records].
  - destruct rows; [contradiction | discriminate Fr].
  - reflexivity.
Qed.

(** X28: in such a run, when the driver answers without rows or without a
    description, the empty frame is stored and the results tab shows only
    "No data returned from the stored procedure."; no export is offered. *)
Theorem run_without_data_offers_nothing
    {Value : Type} (D : Driver Value) (to_csv : DataFrame Value -> string)
    (sidebar : SidebarForm) (form : ProcedureForm) (export : ExportForm)
    (timestamp : string) (r : RawSession Value) (w w1 w2 : World D)
    (s s1 : Session Value) (banners : list Banner)
    (h : Handle) (c : Cursor) (description : option (list ColumnDescription))
    (rows : list (list Value)) :
  session_of (initialize_session_state r) = Some s ->
  render_sidebar D sidebar s w = (s1, w1, banners, false) ->
  is_connected (db_connection (core s1)) = true ->
  connection (db_connection (core s1)) = Some h ->
  execute_clicked form = true ->
  procedure_name form <> EmptyString ->
  answered D h (procedure_name form) (call_parameters form) w1 c
    description rows w2 ->
  rows = [] \/ description = None \/ description = Some [] ->
  main D to_csv sidebar form export timestamp r w
  = (store (initialize_session_state r)
       (with_core s1
          (set_last_result (core s1)
             (Some {| df_columns := []; df_rows := [] |}))),
     w2,
     banners ++
     [Success "Procedure executed successfully. No data returned."],
     Some (Info "No data returned from the stored procedure.")).
Proof.
  intros Hs Hb Hi Hc Hk Hn A He.
  assert (R : render_procedure_interface D form (core s1) w1
              = (set_last_result (core s1) (Some DataFrame_empty), w2,
                 [Success
                    "Procedure executed successfully. No data returned."])).
  { unfold render_procedure_interface. rewrite Hi, Hk. cbn [negb].
    apply truthy_str_true in Hn. rewrite Hn. cbn [negb].
    rewrite (execute_answered D (db_connection (core s1)) h
               (procedure_name form) (call_parameters form) w1 c description
               rows w2 Hi Hc A).
    destruct He as [-> | [-> | ->]];
      [now destruct description as [[| col d] |] | reflexivity | reflexivity]. }
  rewrite (main_tabs D to_csv sidebar form export timestamp r w w1 w2 s s1
             banners _ _ Hs Hb R).
  reflexivity.
Qed.

(** X29: in such a run, when execute_stored_procedure returns False, the
    results tab of the same run shows only "Execute a stored procedure to see
    results here.": the table of an earlier execution is gone from the
    session and from the page. *)
Theorem failed_run_shows_no_table
    {Value : Type} (D : Driver Value) (to_csv : DataFrame Value -> string)
    (sidebar : SidebarForm) (form : ProcedureForm) (export : ExportForm)
    (timestamp : string) (r : RawSession Value) (w w1 w2 : World D)
    (s s1 : Session Value) (banners : list Banner)
    (data : option (DataFrame Value)) (message : string) :
  session_of (initialize_session_state r) = Some s ->
  render_sidebar D sidebar s w = (s1, w1, banners, false) ->
  is_connected (db_connection (core s1)) = true ->
  execute_clicked form = true ->
  procedure_name form <> EmptyString ->
  execute_stored_procedure D (db_connection (core s1)) (procedure_name form)
    (call_parameters form) w1
  = ((false, data, message), w2) ->
  main D to_csv sidebar form export timestamp r w
  = (store (initialize_session_state r)
       (with_core s1 (set_last_result (core s1) None)),
     w2, banners ++ [Error message],
     Some (Info "Execute a stored procedure to see results here.")).
Proof.
  intros Hs Hb Hi Hk Hn E.
  assert (R : render_procedure_interface D form (core s1) w1
              = (set_last_result (core s1) None, w2, [Error message])).
  { unfold render_procedure_interface. rewrite Hi, Hk. cbn [negb].
    apply truthy_str_true in Hn. rewrite Hn. cbn [negb]. now rewrite E. }
  rewrite (main_tabs D to_csv sidebar form export timestamp r w w1 w2 s s1
             banners _ _ Hs Hb R).
  reflexivity.
Qed.

Lemma run_with_rows_offers_export_witness :
  (session_of (initialize_session_state working_raw) = Some working_session
   /\ render_sidebar (scripted two_rows) idle_sidebar working_session
        (fresh_world two_rows)
      = (working_session, fresh_world two_rows,
         [Success "✅ Connected to Database";
          Success "✅ Connected successfully!"], false)
   /\ is_connected (db_connection (core working_session)) = true
   /\ connection (db_connection (core working_session)) = Some 1%nat
   /\ execute_clicked employees_form = true
   /\ procedure_name employees_form <> EmptyString
   /\ answered (scripted two_rows) 1%nat (procedure_name employees_form)
        (call_parameters employees_form) (fresh_world two_rows) 7%nat
        (Some id_name_description)
        [[CInt 1; CStr "a"]; [CInt 2; CStr "b"]] (after_employees two_rows)
   /\ id_name_description <> []
   /\ [[CInt 1; CStr "a"]; [CInt 2; CStr "b"]] <> []
   /\ from_records (scripted two_rows)
        [[CInt 1; CStr "a"]; [CInt 2; CStr "b"]]
        (map column_0 id_name_description)
      = Returned employees_frame)
  /\ (main (scripted two_rows) plain_csv idle_sidebar employees_form
        default_export "20250101_120000" working_raw (fresh_world two_rows)
      = (store (initialize_session_state working_raw)
           (with_core working_session
              (set_last_result (core working_session)
                 (Some employees_frame))),
         after_employees two_rows,
         [Success "✅ Connected to Database";
          Success "✅ Connected successfully!";
          Success "Procedure executed successfully. 2 rows returned."],
         Some (Export employees_frame
                 "stored_procedure_results_20250101_120000.csv"
                 (plain_csv employees_frame)
                 "stored_procedure_results_20250101_120000.csv"
                 "text/csv" None
                 (csv_preview (plain_csv employees_frame))))
      /\ df_columns employees_frame = map column_0 id_name_description
      /\ length (df_rows employees_frame)
         = length [[CInt 1; CStr "a"]; [CInt 2; CStr "b"]]).
Proof.
  assert (A : answered (scripted two_rows) 1%nat
                (procedure_name employees_form)
                (call_parameters employees_form) (fresh_world two_rows) 7%nat
                (Some id_name_description)
                [[CInt 1; CStr "a"]; [CInt 2; CStr "b"]]
                (after_employees two_rows)).
  { unfold answered.
    exists (Build_World (scripted two_rows) 0%nat [CallCursor 1%nat]).
    exists (Build_World (scripted two_rows) 0%nat
              [CallCursor 1%nat;
               CallExecute 7%nat "EXEC sp_GetEmployees ?" (Some ["42"%string])]).
    split; [| split; [| split]]; vm_compute; reflexivity. }
  split.
  - repeat split; try discriminate. exact A.
  - apply (run_with_rows_offers_export (scripted two_rows) plain_csv
             idle_sidebar employees_form default_export "20250101_120000"
             working_raw (fresh_world two_rows) (fresh_world two_rows)
             (after_employees two_rows) working_session working_session
             [Success "✅ Connected to Database";
              Success "✅ Connected successfully!"] 1%nat 7%nat
             id_name_description [[CInt 1; CStr "a"]; [CInt 2; CStr "b"]]
             employees_frame);
      [reflexivity | reflexivity | reflexivity | reflexivity | reflexivity
      | discriminate | exact A | discriminate | discriminate | reflexivity].
Defined.

(** What the stand-in writer makes of the two scripted rows. *)
Example plain_csv_of_employees :
  plain_csv employees_frame
  = ("id,name" ++ newline ++ "1,a" ++ newline ++ "2,b" ++ newline)%string
  /\ csv_preview (plain_csv employees_frame) = plain_csv employees_frame.
Proof. split; reflexivity. Qed.

Lemma run_without_data_offers_nothing_witness :
  (session_of (initialize_session_state working_raw) = Some working_session
   /\ render_sidebar (scripted zero_rows) idle_sidebar working_session
        (fresh_world zero_rows)
      = (working_session, fresh_world zero_rows,
         [Success "✅ Connected to Database";
          Success "✅ Connected successfully!"], false)
   /\ is_connected (db_connection (core working_session)) = true
   /\ connection (db_connection (core working_session)) = Some 1%nat
   /\ execute_clicked employees_form = true
   /\ procedure_name employees_form <> EmptyString
   /\ answered (scripted zero_rows) 1%nat (procedure_name employees_form)
        (call_parameters employees_form) (fresh_world zero_rows) 7%nat
        (Some id_name_description) [] (after_employees zero_rows)
   /\ (@nil (list Cell) = []
       \/ Some id_name_description = None
       \/ Some id_name_description = Some []))
  /\ main (scripted zero_rows) plain_csv idle_sidebar employees_form
       default_export "20250101_120000" working_raw (fresh_world zero_rows)
     = (store (initialize_session_state working_raw)
          (with_core working_session
             (set_last_result (core working_session)
                (Some {| df_columns := []; df_rows := [] |}))),
        after_employees zero_rows,
        [Success "✅ Connected to Database";
         Success "✅ Connected successfully!";
         Success "Procedure executed successfully. No data returned."],
        Some (Info "No data returned from the stored procedure.")).
Proof.
  assert (A : answered (scripted zero_rows) 1%nat
                (procedure_name employees_form)
                (call_parameters employees_form) (fresh_world zero_rows) 7%nat
                (Some id_name_description) [] (after_employees zero_rows)).
  { unfold answered.
    exists (Build_World (scripted zero_rows) 0%nat [CallCursor 1%nat]).
    exists (Build_World (scripted zero_rows) 0%nat
              [CallCursor 1%nat;
               CallExecute 7%nat "EXEC sp_GetEmployees ?" (Some ["42"%string])]).
    split; [| split; [| split]]; vm_compute; reflexivity. }
  split.
  - repeat split; try discriminate; [exact A | now left].
  - apply (run_without_data_offers_nothing (scripted zero_rows) plain_csv
             idle_sidebar employees_form default_export "20250101_120000"
             working_raw (fresh_world zero_rows) (fresh_world zero_rows)
             (after_employees zero_rows) working_session working_session
             [Success "✅ Connected to Database";
              Success "✅ Connected successfully!"] 1%nat 7%nat
             (Some id_name_description) []);
      [reflexivity | reflexivity | reflexivity | reflexivity | reflexivity
      | discriminate | exact A | now left].
Defined.

Lemma failed_run_shows_no_table_witness :
  (session_of (initialize_session_state working_raw) = Some working_session
   /\ render_sidebar (scripted statement_rejected) idle_sidebar
        working_session (fresh_world statement_rejected)
      = (working_session, fresh_world statement_rejected,
         [Success "✅ Connected to Database";
          Success "✅ Connected successfully!"], false)
   /\ is_connected (db_connection (core working_session)) = true
   /\ execute_clicked employees_form = true
   /\ procedure_name employees_form <> EmptyString
   /\ execute_stored_procedure (scripted statement_rejected)
        (db_connection (core working_session))
        (procedure_name employees_form) (call_parameters employees_form)
        (fresh_world statement_rejected)
      = ((false, None, "SQL Error: Could not find stored procedure."%string),
         Build_World (scripted statement_rejected) 0%nat
           [CallCursor 1%nat;
            CallExecute 7%nat "EXEC sp_GetEmployees ?"
              (Some ["42"%string])]))
  /\ main (scripted statement_rejected) plain_csv idle_sidebar employees_form
       default_export "20250101_120000" working_raw
       (fresh_world statement_rejected)
     = (store (initialize_session_state working_raw)
          (with_core working_session
             (set_last_result (core working_session) None)),
        Build_World (scripted statement_rejected) 0%nat
          [CallCursor 1%nat;
           CallExecute 7%nat "EXEC sp_GetEmployees ?" (Some ["42"%string])],
        [Success "✅ Connected to Database";
         Success "✅ Connected successfully!";
         Error "SQL Error: Could not find stored procedure."],
        Some (Info "Execute a stored procedure to see results here.")).
Proof.
  split.
  - repeat split. discriminate.
  - apply (failed_run_shows_no_table (scripted statement_rejected) plain_csv
             idle_sidebar employees_form default_export "20250101_120000"
             working_raw (fresh_world statement_rejected)
             (fresh_world statement_rejected)
             (Build_World (scripted statement_rejected) 0%nat
                [CallCursor 1%nat;
                 CallExecute 7%nat "EXEC sp_GetEmployees ?"
                   (Some ["42"%string])])
             working_session working_session
             [Success "✅ Connected to Database";
              Success "✅ Connected successfully!"]
             None "SQL Error: Could not find stored procedure.");
      [reflexivity | reflexivity | reflexivity | reflexivity | discriminate
      | reflexivity].
Defined.
